(** * pyalgotrading: the AlgoBulls API client ([pyalgotrading/algobulls/api.py])

    A shallow embedding of the class [AlgoBullsAPI]: its dispatch routine
    [_send_request], the per-trading-type key cache ([__fetch_key],
    [__get_key]) and the eleven public operations, together with the
    properties of the client's contract.

    The client is stateful (an authorization header and three cached keys),
    talks to a backend over HTTP and raises Python exceptions.  It is
    modelled in a state-and-exception monad over a [World] that holds the
    client object, the HTTP exchanges performed so far and the exceptions
    raised so far.  As in Python, a raised exception keeps every state
    change made before it.  The [print] calls of the operations write to the
    console only and are left out. *)

From Stdlib Require Import ZArith List String Bool Lia.
Import ListNotations.
Local Open Scope string_scope.
Local Open Scope list_scope.
Local Open Scope Z_scope.

Set Implicit Arguments.
Set Warnings "-register-all".

(** ** Python values *)

(** The values that travel through the client: what [response.json()]
    yields, what is sent as [params] or [json], and what the key slots hold.
    A [dict] is an association list read from the left. *)
Inductive pyval : Type :=
| PyNone
| PyBool (b : bool)
| PyInt (z : Z)
| PyStr (s : string)
| PyList (l : list pyval)
| PyTuple (l : list pyval)
| PyDict (d : list (string * pyval)).

(** [v is None] *)
Definition is_None (v : pyval) : bool :=
  match v with PyNone => true | _ => false end.

Fixpoint assoc_get (k : string) (d : list (string * pyval)) : option pyval :=
  match d with
  | [] => None
  | (k', v) :: d' => if String.eqb k k' then Some v else assoc_get k d'
  end.

(** ** Enumerations *)

(** Modelled from the spec: [pyalgotrading/constants.py] is not part of the
    sources at hand.  A trading mode is one of BACKTESTING, PAPERTRADING and
    REALTRADING; these are the members that [api.py] names. *)
Inductive TradingType : Type := BACKTESTING | PAPERTRADING | REALTRADING.

(** Modelled from the spec: also of [pyalgotrading/constants.py].  A report
    kind is one of PNL_TABLE, STATS_TABLE and ORDER_HISTORY. *)
Inductive TradingReportType : Type := PNL_TABLE | STATS_TABLE | ORDER_HISTORY.

(** Python checks no argument type: an operation may receive, where a
    member of an enumeration is expected, any other object. *)
Inductive tag (E : Type) : Type :=
| Member (e : E)
| Foreign (v : pyval).
Arguments Foreign {E} v.

Definition TradingType_eqb (a b : TradingType) : bool :=
  match a, b with
  | BACKTESTING, BACKTESTING | PAPERTRADING, PAPERTRADING
  | REALTRADING, REALTRADING => true
  | _, _ => false
  end.

Definition TradingReportType_eqb (a b : TradingReportType) : bool :=
  match a, b with
  | PNL_TABLE, PNL_TABLE | STATS_TABLE, STATS_TABLE
  | ORDER_HISTORY, ORDER_HISTORY => true
  | _, _ => false
  end.

(** [x is E.M] and [x == E.M] for a member [M] of an enumeration: both are
    identity on members, and no foreign object is a member. *)
Definition tag_is {E : Type} (eqb : E -> E -> bool) (x : tag E) (m : E) : bool :=
  match x with
  | Member e => eqb e m
  | Foreign _ => false
  end.

(** ** Exceptions *)

(** Modelled from the spec: [pyalgotrading/algobulls/exceptions.py] is not
    part of the sources at hand.  The taxonomy has one generic base kind and
    six status-specific kinds; every error of the taxonomy carries the HTTP
    method, the URL and the response payload, and the seven kinds are
    distinct classes, none of the six a subclass of another. *)
Inductive AlgoBullsAPIErrorClass : Type :=
| AlgoBullsAPIBaseException
| AlgoBullsAPIBadRequest
| AlgoBullsAPIUnauthorizedError
| AlgoBullsAPIInsufficientBalanceError
| AlgoBullsAPIForbiddenError
| AlgoBullsAPIResourceNotFoundError
| AlgoBullsAPIInternalServerErrorException.

Inductive exn : Type :=
| AlgoBullsAPIError (cls : AlgoBullsAPIErrorClass)
                    (method url : string) (response : pyval)
| NotImplementedError
| JSONDecodeError
| AttributeError.

Inductive result (A : Type) : Type :=
| Ok (a : A)
| Raise (e : exn).
Arguments Raise {A} e.

(** [d.get(k)] on a parsed body: a [dict] answers with the value or [None];
    no other JSON value has a [get] attribute. *)
Definition py_get (v : pyval) (k : string) : result pyval :=
  match v with
  | PyDict d => Ok (match assoc_get k d with Some x => x | None => PyNone end)
  | _ => Raise AttributeError
  end.

(** ** HTTP *)

Definition Headers : Type := list (string * string).

Fixpoint header_get (k : string) (h : Headers) : option string :=
  match h with
  | [] => None
  | (k', v) :: h' => if String.eqb k k' then Some v else header_get k h'
  end.

(** The arguments of [requests.request]. *)
Record Request : Type := mkRequest {
  rq_method : string;
  rq_headers : option Headers;
  rq_url : string;
  rq_params : option pyval;
  rq_json : option pyval
}.

(** What the client reads of a [requests.Response]: the status code, the
    outcome of [response.json()] ([None] when it raises [JSONDecodeError])
    and [str(response)]. *)
Record Response : Type := mkResponse {
  status_code : Z;
  json_body : option pyval;
  str_response : string
}.

(** The value of the [Authorization] header of a request, if it has one. *)
Definition authorization (rq : Request) : option string :=
  match rq_headers rq with
  | Some h => header_get "Authorization" h
  | None => None
  end.

(** ** The client object and the world around it *)

(** The attributes set by [__init__]. *)
Record AlgoBullsAPI : Type := mkAPI {
  headers : option Headers;
  key_backtesting : pyval;
  key_papertrading : pyval;
  key_realtrading : pyval
}.

(** [AlgoBullsAPI()] *)
Definition __init__ : AlgoBullsAPI :=
  {| headers := None;
     key_backtesting := PyNone;
     key_papertrading := PyNone;
     key_realtrading := PyNone |}.

Definition SERVER_ENDPOINT : string := "http://127.0.0.1:8000/".

(** The cache slot of a trading type. *)
Definition slot (t : TradingType) (a : AlgoBullsAPI) : pyval :=
  match t with
  | BACKTESTING => key_backtesting a
  | PAPERTRADING => key_papertrading a
  | REALTRADING => key_realtrading a
  end.

Definition set_slot (t : TradingType) (k : pyval) (a : AlgoBullsAPI) : AlgoBullsAPI :=
  match t with
  | BACKTESTING =>
      {| headers := headers a; key_backtesting := k;
         key_papertrading := key_papertrading a;
         key_realtrading := key_realtrading a |}
  | PAPERTRADING =>
      {| headers := headers a; key_backtesting := key_backtesting a;
         key_papertrading := k;
         key_realtrading := key_realtrading a |}
  | REALTRADING =>
      {| headers := headers a; key_backtesting := key_backtesting a;
         key_papertrading := key_papertrading a;
         key_realtrading := k |}
  end.

(** The client, the exchanges with the backend in the order they happened,
    and the exceptions raised in the order they were raised: those of the
    [raise] statements of [api.py], and those that leave a library call which
    no [try] surrounds ([response.json()] at line 65, [response.get] at line
    92).  The decode error of the guarded parse at line 60 is handled on the
    spot and is a value, not an entry of the list.  The two lists are
    observations: the client never reads them. *)
Record World : Type := mkWorld {
  self : AlgoBullsAPI;
  sent : list (Request * Response);
  raised : list exn
}.

Definition fresh_world : World :=
  {| self := __init__; sent := []; raised := [] |}.

(** ** The monad *)

Definition M (A : Type) : Type := World -> result A * World.

Definition ret {A : Type} (a : A) : M A := fun w => (Ok a, w).

Definition bind {A B : Type} (m : M A) (f : A -> M B) : M B :=
  fun w =>
    match m w with
    | (Ok a, w') => f a w'
    | (Raise e, w') => (Raise e, w')
    end.

(** [raise e] *)
Definition raise {A : Type} (e : exn) : M A :=
  fun w => (Raise e,
            {| self := self w; sent := sent w; raised := raised w ++ [e] |}).

(** [try: m  except (classes) as ex: h ex] *)
Definition try_except {A : Type} (m : M A) (catches : exn -> bool)
    (h : exn -> M A) : M A :=
  fun w =>
    match m w with
    | (Ok a, w') => (Ok a, w')
    | (Raise e, w') => if catches e then h e w' else (Raise e, w')
    end.

Definition get_self : M AlgoBullsAPI := fun w => (Ok (self w), w).

Definition put_self (a : AlgoBullsAPI) : M unit :=
  fun w => (Ok tt, {| self := a; sent := sent w; raised := raised w |}).

(** The result of a library call that may raise. *)
Definition lift_result {A : Type} (r : result A) : M A :=
  match r with
  | Ok a => ret a
  | Raise e => raise e
  end.

Declare Scope py_scope.
Delimit Scope py_scope with py.
Notation "x <- m ;; k" := (bind m (fun x => k))
  (at level 61, m at next level, right associativity) : py_scope.
Notation "m ;;; k" := (bind m (fun _ => k))
  (at level 61, right associativity) : py_scope.
Local Open Scope py_scope.

(** ** The client's code *)

Section Client.

(** [requests.request]: the backend's answer to a request, which may depend
    on the exchanges that came before.  Every request is answered: failures
    of the transport itself are outside the client's code. *)
Variable requests_request : list (Request * Response) -> Request -> Response.

(** [str(v)], as the f-string [f'v2/user/strategy/{key}/tweak'] applies it. *)
Variable py_str : pyval -> string.

(** [trading_type.value] of [pyalgotrading/constants.py]. *)
Variable TradingType_value : TradingType -> pyval.

Definition request (rq : Request) : M Response :=
  fun w =>
    let rs := requests_request (sent w) rq in
    (Ok rs,
     {| self := self w; sent := sent w ++ [(rq, rs)]; raised := raised w |}).

(** Lines 59-62: the guarded parse,
    [try: response.json()  except JSONDecodeError: str(response)]. *)
Definition guarded_json (response : Response) : pyval :=
  match json_body response with
  | Some j => j
  | None => PyStr (str_response response)
  end.

(** Line 65: the second, unguarded [response.json()]. *)
Definition response_json (response : Response) : M pyval :=
  match json_body response with
  | Some j => ret j
  | None => raise JSONDecodeError
  end.

(** The status dispatch of lines 64-85.  (The assignment to
    [response.raw.decode_content] in the last branch touches the response
    object only.) *)
Definition dispatch_status (method url : string) (response : Response)
    (response_json_ : pyval) : M pyval :=
  let status := status_code response in
  if status =? 200 then response_json response
  else if status =? 400 then
    raise (AlgoBullsAPIError AlgoBullsAPIBadRequest method url response_json_)
  else if status =? 401 then
    raise (AlgoBullsAPIError AlgoBullsAPIUnauthorizedError method url response_json_)
  else if status =? 402 then
    raise (AlgoBullsAPIError AlgoBullsAPIInsufficientBalanceError method url response_json_)
  else if status =? 403 then
    raise (AlgoBullsAPIError AlgoBullsAPIForbiddenError method url response_json_)
  else if status =? 404 then
    raise (AlgoBullsAPIError AlgoBullsAPIResourceNotFoundError method url response_json_)
  else if status =? 500 then
    raise (AlgoBullsAPIError AlgoBullsAPIInternalServerErrorException method url response_json_)
  else
    raise (AlgoBullsAPIError AlgoBullsAPIBaseException method url response_json_).

Definition _send_request (method endpoint base_url : string)
    (params json_data : option pyval) (requires_authorization : bool) : M pyval :=
  let url := (base_url ++ endpoint)%string in
  this <- get_self ;;
  let headers_ := if requires_authorization then headers this else None in
  response <- request {| rq_method := method; rq_headers := headers_;
                         rq_url := url; rq_params := params;
                         rq_json := json_data |} ;;
  dispatch_status method url response (guarded_json response).

(** [set_access_token]; [f'{access_token}'] of a [str] is that [str]. *)
Definition set_access_token (access_token : string) : M unit :=
  this <- get_self ;;
  put_self {| headers := Some [("Authorization", access_token)];
              key_backtesting := key_backtesting this;
              key_papertrading := key_papertrading this;
              key_realtrading := key_realtrading this |}.

Definition __fetch_key (strategy_code : string) (trading_type : TradingType) : M pyval :=
  let endpoint := "v2/portfolio/strategy" in
  let json_data := PyDict [("strategyId", PyStr strategy_code);
                           ("tradingType", TradingType_value trading_type)] in
  response <- _send_request "options" endpoint SERVER_ENDPOINT None (Some json_data) true ;;
  key <- lift_result (py_get response "key") ;;
  ret key.

(** One branch of [__get_key]: the slot of [t] is read, filled when it holds
    [None], and read again for the return value. *)
Definition get_key_slot (strategy_code : string) (t : TradingType) : M pyval :=
  this <- get_self ;;
  (if is_None (slot t this) then
     key <- __fetch_key strategy_code t ;;
     this' <- get_self ;;
     put_self (set_slot t key this')
   else ret tt) ;;;
  this'' <- get_self ;;
  ret (slot t this'').

Definition __get_key (strategy_code : string) (trading_type : tag TradingType) : M pyval :=
  if tag_is TradingType_eqb trading_type BACKTESTING then
    get_key_slot strategy_code BACKTESTING
  else if tag_is TradingType_eqb trading_type PAPERTRADING then
    get_key_slot strategy_code PAPERTRADING
  else if tag_is TradingType_eqb trading_type REALTRADING then
    get_key_slot strategy_code REALTRADING
  else raise NotImplementedError.

(** *** Public operations *)

Definition create_strategy (strategy_name strategy_details abc_version : string) : M pyval :=
  let json_data := PyDict [("strategyName", PyStr strategy_name);
                           ("strategyDetails", PyStr strategy_details);
                           ("abcVersion", PyStr abc_version)] in
  let endpoint := "v2/user/strategy/build/python" in
  response <- _send_request "post" endpoint SERVER_ENDPOINT None (Some json_data) true ;;
  ret response.

Definition update_strategy (strategy_name strategy_details abc_version : string) : M pyval :=
  let json_data := PyDict [("strategyName", PyStr strategy_name);
                           ("strategyDetails", PyStr strategy_details);
                           ("abcVersion", PyStr abc_version)] in
  let endpoint := "v2/user/strategy/build/python" in
  response <- _send_request "put" endpoint SERVER_ENDPOINT None (Some json_data) true ;;
  ret response.

Definition get_all_strategies : M pyval :=
  let endpoint := "v2/user/strategy/build/python" in
  response <- _send_request "options" endpoint SERVER_ENDPOINT None None true ;;
  ret response.

Definition get_strategy_details (strategy_code : string) : M pyval :=
  let params := PyDict [("strategyCode", PyStr strategy_code)] in
  let endpoint := "v2/user/strategy/build/python" in
  response <- _send_request "get" endpoint SERVER_ENDPOINT (Some params) None true ;;
  ret response.

Definition search_instrument (instrument : string) : M pyval :=
  let params := PyDict [("instrument", PyStr instrument)] in
  let endpoint := "v2/instrument/search" in
  response <- _send_request "get" endpoint SERVER_ENDPOINT (Some params) None false ;;
  ret response.

Definition set_strategy_config (strategy_code : string) (strategy_config : pyval)
    (trading_type : tag TradingType) : M pyval :=
  let json_data := strategy_config in
  key <- __get_key strategy_code trading_type ;;
  let endpoint := ("v2/user/strategy/" ++ py_str key ++ "/tweak")%string in
  response <- _send_request "patch" endpoint SERVER_ENDPOINT None (Some json_data) true ;;
  ret (PyTuple [key; response]).

(** The endpoint selection that opens [start_strategy_algotrading] and
    [stop_strategy_algotrading]. *)
Definition strategies_endpoint (trading_type : tag TradingType) : M string :=
  if tag_is TradingType_eqb trading_type REALTRADING then ret "v2/portfolio/strategies"
  else if tag_is TradingType_eqb trading_type PAPERTRADING then ret "v2/papertrading/strategies"
  else if tag_is TradingType_eqb trading_type BACKTESTING then ret "v2/backtesting/strategies"
  else raise NotImplementedError.

(** [except (AlgoBullsAPIForbiddenError, AlgoBullsAPIInsufficientBalanceError)] *)
Definition forbidden_or_insufficient_balance (e : exn) : bool :=
  match e with
  | AlgoBullsAPIError AlgoBullsAPIForbiddenError _ _ _ => true
  | AlgoBullsAPIError AlgoBullsAPIInsufficientBalanceError _ _ _ => true
  | _ => false
  end.

(** The handler prints and falls off the end of the function, which then
    returns [None].  Console output is not part of the model. *)
Definition start_strategy_algotrading (strategy_code : string)
    (trading_type : tag TradingType) : M pyval :=
  endpoint <- strategies_endpoint trading_type ;;
  try_except
    (key <- __get_key strategy_code trading_type ;;
     let json_data := PyDict [("method", PyStr "update"); ("newVal", PyInt 1);
                              ("key", key);
                              ("record", PyDict [("status", PyInt 0)])] in
     response <- _send_request "post" endpoint SERVER_ENDPOINT None (Some json_data) true ;;
     ret response)
    forbidden_or_insufficient_balance
    (fun ex => ret PyNone).

Definition stop_strategy_algotrading (strategy_code : string)
    (trading_type : tag TradingType) : M pyval :=
  endpoint <- strategies_endpoint trading_type ;;
  try_except
    (key <- __get_key strategy_code trading_type ;;
     let json_data := PyDict [("method", PyStr "update"); ("newVal", PyInt 0);
                              ("key", key);
                              ("record", PyDict [("status", PyInt 2)])] in
     response <- _send_request "post" endpoint SERVER_ENDPOINT None (Some json_data) true ;;
     ret response)
    forbidden_or_insufficient_balance
    (fun ex => ret PyNone).

Definition get_job_status (strategy_code : string) (trading_type : tag TradingType) : M pyval :=
  key <- __get_key strategy_code trading_type ;;
  let params := PyDict [("key", key)] in
  let endpoint := "v2/user/strategy/status" in
  response <- _send_request "get" endpoint SERVER_ENDPOINT (Some params) None true ;;
  ret response.

Definition get_logs (strategy_code : string) (trading_type : tag TradingType) : M pyval :=
  let endpoint := "v2/user/strategy/logs" in
  key <- __get_key strategy_code trading_type ;;
  let json_data := PyDict [("key", key)] in
  response <- _send_request "post" endpoint SERVER_ENDPOINT None (Some json_data) true ;;
  ret response.

Definition reports_endpoint (report_type : tag TradingReportType) : M string :=
  if tag_is TradingReportType_eqb report_type PNL_TABLE then ret "v2/user/strategy/pltable"
  else if tag_is TradingReportType_eqb report_type STATS_TABLE then ret "v2/user/strategy/statstable"
  else if tag_is TradingReportType_eqb report_type ORDER_HISTORY then ret "v2/user/strategy/orderhistory"
  else raise NotImplementedError.

Definition get_reports (strategy_code : string) (trading_type : tag TradingType)
    (report_type : tag TradingReportType) : M pyval :=
  endpoint <- reports_endpoint report_type ;;
  key <- __get_key strategy_code trading_type ;;
  let params := PyDict [("key", key)] in
  response <- _send_request "get" endpoint SERVER_ENDPOINT (Some params) None true ;;
  ret response.

(** *** Calls on a client *)

(** A call of one of the public methods, with its arguments. *)
Inductive call : Type :=
| Call_set_access_token (access_token : string)
| Call_create_strategy (strategy_name strategy_details abc_version : string)
| Call_update_strategy (strategy_name strategy_details abc_version : string)
| Call_get_all_strategies
| Call_get_strategy_details (strategy_code : string)
| Call_search_instrument (instrument : string)
| Call_set_strategy_config (strategy_code : string) (strategy_config : pyval)
                           (trading_type : tag TradingType)
| Call_start_strategy_algotrading (strategy_code : string) (trading_type : tag TradingType)
| Call_stop_strategy_algotrading (strategy_code : string) (trading_type : tag TradingType)
| Call_get_job_status (strategy_code : string) (trading_type : tag TradingType)
| Call_get_logs (strategy_code : string) (trading_type : tag TradingType)
| Call_get_reports (strategy_code : string) (trading_type : tag TradingType)
                   (report_type : tag TradingReportType).

Definition run (c : call) : M pyval :=
  match c with
  | Call_set_access_token t => set_access_token t ;;; ret PyNone
  | Call_create_strategy n d v => create_strategy n d v
  | Call_update_strategy n d v => update_strategy n d v
  | Call_get_all_strategies => get_all_strategies
  | Call_get_strategy_details sc => get_strategy_details sc
  | Call_search_instrument i => search_instrument i
  | Call_set_strategy_config sc cfg ty => set_strategy_config sc cfg ty
  | Call_start_strategy_algotrading sc ty => start_strategy_algotrading sc ty
  | Call_stop_strategy_algotrading sc ty => stop_strategy_algotrading sc ty
  | Call_get_job_status sc ty => get_job_status sc ty
  | Call_get_logs sc ty => get_logs sc ty
  | Call_get_reports sc ty rt => get_reports sc ty rt
  end.

(** A caller that makes the calls of [cs] one after the other on the same
    client, going on after a call that raised. *)
Fixpoint run_all (cs : list call) (w : World) : World :=
  match cs with
  | [] => w
  | c :: cs' => run_all cs' (snd (run c w))
  end.

End Client.


(** ** Vocabulary of the properties *)

(** The request that [_send_request] builds on a client [a]. *)
Definition built_request (a : AlgoBullsAPI) (method endpoint base_url : string)
    (params json_data : option pyval) (requires_authorization : bool) : Request :=
  {| rq_method := method;
     rq_headers := if requires_authorization then headers a else None;
     rq_url := (base_url ++ endpoint)%string;
     rq_params := params;
     rq_json := json_data |}.

(** The world once a request has been answered, and once an exception has
    been raised. *)
Definition answered (w : World) (rq : Request) (rs : Response) : World :=
  {| self := self w; sent := sent w ++ [(rq, rs)]; raised := raised w |}.

Definition raising (w : World) (e : exn) : World :=
  {| self := self w; sent := sent w; raised := raised w ++ [e] |}.

(** The same world around another client object. *)
Definition with_self (a : AlgoBullsAPI) (w : World) : World :=
  {| self := a; sent := sent w; raised := raised w |}.

(** The class [_send_request] raises on a status other than 200. *)
Definition class_of_status (status : Z) : AlgoBullsAPIErrorClass :=
  if status =? 400 then AlgoBullsAPIBadRequest
  else if status =? 401 then AlgoBullsAPIUnauthorizedError
  else if status =? 402 then AlgoBullsAPIInsufficientBalanceError
  else if status =? 403 then AlgoBullsAPIForbiddenError
  else if status =? 404 then AlgoBullsAPIResourceNotFoundError
  else if status =? 500 then AlgoBullsAPIInternalServerErrorException
  else AlgoBullsAPIBaseException.

(** The error of the taxonomy that answers an exchange. *)
Definition error_of (x : Request * Response) : exn :=
  AlgoBullsAPIError (class_of_status (status_code (snd x)))
    (rq_method (fst x)) (rq_url (fst x))
    (guarded_json (snd x)).

(** What a computation added to the two observation lists. *)
Definition sent_during (w w' : World) : list (Request * Response) :=
  skipn (List.length (sent w)) (sent w').

Definition raised_during (w w' : World) : list exn :=
  skipn (List.length (raised w)) (raised w').

(** The registration ("add strategy") request of [__fetch_key]. *)
Definition is_registration (rq : Request) : bool :=
  String.eqb (rq_method rq) "options"
  && String.eqb (rq_url rq) (SERVER_ENDPOINT ++ "v2/portfolio/strategy").

Definition registrations (l : list (Request * Response)) : nat :=
  List.length (filter (fun x => is_registration (fst x)) l).

(** The registration request for a strategy code and a trading type, as a
    client [a] sends it, and the key that the backend grants in answer to it
    in a world [w]: the [key] field of a 200 answer that is a JSON object,
    when that field is there and is not [null]. *)
Definition registration_request (ttv : TradingType -> pyval) (a : AlgoBullsAPI)
    (strategy_code : string) (t : TradingType) : Request :=
  built_request a "options" "v2/portfolio/strategy" SERVER_ENDPOINT None
    (Some (PyDict [("strategyId", PyStr strategy_code); ("tradingType", ttv t)]))
    true.

Definition granted_key (net : list (Request * Response) -> Request -> Response)
    (ttv : TradingType -> pyval) (strategy_code : string) (t : TradingType)
    (w : World) : option pyval :=
  let rs := net (sent w) (registration_request ttv (self w) strategy_code t) in
  if status_code rs =? 200 then
    match json_body rs with
    | Some (PyDict d) =>
        match assoc_get "key" d with
        | Some k => if is_None k then None else Some k
        | None => None
        end
    | _ => None
    end
  else None.

(** The public request of [search_instrument]. *)
Definition is_search (rq : Request) : bool :=
  String.eqb (rq_url rq) (SERVER_ENDPOINT ++ "v2/instrument/search").

(** The strategy code and trading type for which a call resolves a key: the
    key-dependent operations, called with recognized tags. *)
Definition resolves_key (c : call) : option (string * TradingType) :=
  match c with
  | Call_set_strategy_config sc _ (Member t)
  | Call_start_strategy_algotrading sc (Member t)
  | Call_stop_strategy_algotrading sc (Member t)
  | Call_get_job_status sc (Member t)
  | Call_get_logs sc (Member t)
  | Call_get_reports sc (Member t) (Member _) => Some (sc, t)
  | _ => None
  end.

(** The errors that the [try] of a call catches. *)
Definition swallowed_by (c : call) (e : exn) : bool :=
  match c with
  | Call_start_strategy_algotrading _ _
  | Call_stop_strategy_algotrading _ _ => forbidden_or_insufficient_balance e
  | _ => false
  end.

Definition is_set_access_token (c : call) : bool :=
  match c with Call_set_access_token _ => true | _ => false end.

Definition is_search_instrument (c : call) : bool :=
  match c with Call_search_instrument _ => true | _ => false end.

(** A sequence of calls none of which is [set_access_token]. *)
Definition no_set_access_token (cs : list call) : bool :=
  forallb (fun c => negb (is_set_access_token c)) cs.

(** A call that passes an unrecognized object as trading type to key
    resolution or to the start/stop endpoint selection, or as report type to
    [get_reports]. *)
Definition has_foreign_tag (c : call) : bool :=
  match c with
  | Call_set_strategy_config _ _ (Foreign _)
  | Call_start_strategy_algotrading _ (Foreign _)
  | Call_stop_strategy_algotrading _ (Foreign _)
  | Call_get_job_status _ (Foreign _)
  | Call_get_logs _ (Foreign _)
  | Call_get_reports _ (Foreign _) _
  | Call_get_reports _ _ (Foreign _) => true
  | _ => false
  end.

(** ** Backends and parameters for the examples *)

(** [str] on the keys of the examples: exact on [str], [None] and [bool]. *)
Definition str_of_key (v : pyval) : string :=
  match v with
  | PyStr s => s
  | PyNone => "None"
  | PyBool true => "True"
  | PyBool false => "False"
  | _ => ""
  end.

Definition value_of (t : TradingType) : pyval :=
  match t with
  | BACKTESTING => PyStr "BACKTESTING"
  | PAPERTRADING => PyStr "PAPERTRADING"
  | REALTRADING => PyStr "REALTRADING"
  end.

(** A backend that gives every request the same answer. *)
Definition constant_backend (rs : Response)
    (_ : list (Request * Response)) (_ : Request) : Response := rs.

Definition empty_object_200 : Response :=
  {| status_code := 200; json_body := Some (PyDict []);
     str_response := "<Response [200]>" |}.

Definition plain_text_200 : Response :=
  {| status_code := 200; json_body := None;
     str_response := "<Response [200]>" |}.

Definition forbidden_403 : Response :=
  {| status_code := 403;
     json_body := Some (PyDict [("message", PyStr "Forbidden")]);
     str_response := "<Response [403]>" |}.

Definition bad_gateway_502 : Response :=
  {| status_code := 502; json_body := None;
     str_response := "<Response [502]>" |}.

(** A backend that registers: the key of a strategy code and trading type is
    made of the two; every other request is answered with an empty object. *)
Definition registering_backend (_ : list (Request * Response)) (rq : Request) : Response :=
  if is_registration rq then
    match rq_json rq with
    | Some (PyDict [("strategyId", PyStr sc); ("tradingType", PyStr ty)]) =>
        {| status_code := 200;
           json_body := Some (PyDict [("key", PyStr (sc ++ "/" ++ ty))]);
           str_response := "<Response [200]>" |}
    | _ =>
        {| status_code := 400; json_body := Some (PyDict []);
           str_response := "<Response [400]>" |}
    end
  else empty_object_200.


(** The world of a fresh client of the registering backend after a first
    [get_job_status] for strategy [S1] in backtesting mode. *)
Definition after_first_status : World :=
  snd (run registering_backend str_of_key value_of
         (Call_get_job_status "S1" (Member BACKTESTING)) fresh_world).


(** ** Vocabulary of the further properties *)

(** The calls that go straight to one request: no key, no tag. *)
Definition is_plain (c : call) : bool :=
  match c with
  | Call_create_strategy _ _ _ | Call_update_strategy _ _ _
  | Call_get_all_strategies | Call_get_strategy_details _
  | Call_search_instrument _ => true
  | _ => false
  end.

(** The calls whose body sits in a [try]. *)
Definition may_swallow (c : call) : bool :=
  match c with
  | Call_start_strategy_algotrading _ _
  | Call_stop_strategy_algotrading _ _ => true
  | _ => false
  end.

(** The calls that return the response of their request as it is. *)
Definition returns_response (c : call) : bool :=
  match c with
  | Call_set_access_token _ | Call_set_strategy_config _ _ _ => false
  | _ => true
  end.

(** [isinstance(v, dict)] *)
Definition is_dict (v : pyval) : bool :=
  match v with PyDict _ => true | _ => false end.

(** How many of the three slots hold a key. *)
Definition filled (a : AlgoBullsAPI) : nat :=
  ((if is_None (key_backtesting a) then 0 else 1)
   + (if is_None (key_papertrading a) then 0 else 1)
   + (if is_None (key_realtrading a) then 0 else 1))%nat.

(** A backend that grants a key to every registration request. *)
Definition always_grants (net : list (Request * Response) -> Request -> Response)
    (ttv : TradingType -> pyval) : Prop :=
  forall w code t, granted_key net ttv code t w <> None.

(** The endpoints that the code names for start and stop, and for reports. *)
Definition strategies_url (t : TradingType) : string :=
  match t with
  | REALTRADING => "http://127.0.0.1:8000/v2/portfolio/strategies"
  | PAPERTRADING => "http://127.0.0.1:8000/v2/papertrading/strategies"
  | BACKTESTING => "http://127.0.0.1:8000/v2/backtesting/strategies"
  end.

Definition reports_url (r : TradingReportType) : string :=
  match r with
  | PNL_TABLE => "http://127.0.0.1:8000/v2/user/strategy/pltable"
  | STATS_TABLE => "http://127.0.0.1:8000/v2/user/strategy/statstable"
  | ORDER_HISTORY => "http://127.0.0.1:8000/v2/user/strategy/orderhistory"
  end.

(** The body of the start ([new_val = 1], [status = 0]) and of the stop
    ([new_val = 0], [status = 2]) request. *)
Definition job_body (new_val status : Z) (key : pyval) : pyval :=
  PyDict [("method", PyStr "update"); ("newVal", PyInt new_val); ("key", key);
          ("record", PyDict [("status", PyInt status)])].

(** A 200 answer that is a JSON list, and a 500. *)
Definition list_200 : Response :=
  {| status_code := 200; json_body := Some (PyList []);
     str_response := "<Response [200]>" |}.

Definition server_error_500 : Response :=
  {| status_code := 500; json_body := Some (PyDict []);
     str_response := "<Response [500]>" |}.

(** The world of a fresh client of the registering backend after a first
    [get_logs] for strategy [S1] in paper-trading mode. *)
Definition after_first_logs : World :=
  snd (run registering_backend str_of_key value_of
         (Call_get_logs "S1" (Member PAPERTRADING)) fresh_world).

(** * Properties *)

(** ** The dispatch routine *)

Lemma send_request_unfold net method endpoint base_url params json_data auth w :
  _send_request net method endpoint base_url params json_data auth w
  = let rq := built_request (self w) method endpoint base_url params json_data auth in
    let rs := net (sent w) rq in
    dispatch_status method (base_url ++ endpoint)%string rs (guarded_json rs)
      (answered w rq rs).
Proof. reflexivity. Qed.

Lemma class_of_status_cases (status : Z) :
  (status = 400 /\ class_of_status status = AlgoBullsAPIBadRequest) \/
  (status = 401 /\ class_of_status status = AlgoBullsAPIUnauthorizedError) \/
  (status = 402 /\ class_of_status status = AlgoBullsAPIInsufficientBalanceError) \/
  (status = 403 /\ class_of_status status = AlgoBullsAPIForbiddenError) \/
  (status = 404 /\ class_of_status status = AlgoBullsAPIResourceNotFoundError) \/
  (status = 500 /\ class_of_status status = AlgoBullsAPIInternalServerErrorException) \/
  (status <> 400 /\ status <> 401 /\ status <> 402 /\ status <> 403 /\
   status <> 404 /\ status <> 500 /\
   class_of_status status = AlgoBullsAPIBaseException).
Proof.
  unfold class_of_status.
  destruct (Z.eqb_spec status 400); [auto |].
  destruct (Z.eqb_spec status 401); [auto 6 |].
  destruct (Z.eqb_spec status 402); [auto 6 |].
  destruct (Z.eqb_spec status 403); [auto 8 |].
  destruct (Z.eqb_spec status 404); [auto 10 |].
  destruct (Z.eqb_spec status 500); [auto 12 |].
  repeat right. auto 12.
Qed.

Lemma dispatch_status_200 method url (r : Response) (p : pyval) (w0 : World) :
  status_code r = 200 ->
  dispatch_status method url r p w0 = response_json r w0.
Proof. intros H. unfold dispatch_status. rewrite H. reflexivity. Qed.

Lemma dispatch_status_error method url (r : Response) (p : pyval) (w0 : World) :
  status_code r <> 200 ->
  dispatch_status method url r p w0
  = (Raise (AlgoBullsAPIError (class_of_status (status_code r)) method url p),
     raising w0 (AlgoBullsAPIError (class_of_status (status_code r)) method url p)).
Proof.
  intros H. unfold dispatch_status, class_of_status.
  destruct (Z.eqb_spec (status_code r) 200) as [E | _]; [contradiction |].
  repeat match goal with
         | |- context [?a =? ?b] => destruct (a =? b); [reflexivity |]
         end.
  reflexivity.
Qed.

(** The three ways a call of [_send_request] can end. *)
Lemma send_request_cases net method endpoint base_url params json_data auth w :
  let rq := built_request (self w) method endpoint base_url params json_data auth in
  let rs := net (sent w) rq in
  (status_code rs = 200 /\ exists j, json_body rs = Some j /\
     _send_request net method endpoint base_url params json_data auth w
     = (Ok j, answered w rq rs)) \/
  (status_code rs = 200 /\ json_body rs = None /\
     _send_request net method endpoint base_url params json_data auth w
     = (Raise JSONDecodeError, raising (answered w rq rs) JSONDecodeError)) \/
  (status_code rs <> 200 /\
     _send_request net method endpoint base_url params json_data auth w
     = (Raise (error_of (rq, rs)), raising (answered w rq rs) (error_of (rq, rs)))).
Proof.
  intros rq rs. rewrite send_request_unfold. fold rq. fold rs. cbv zeta.
  destruct (Z.eq_dec (status_code rs) 200) as [H | H].
  - rewrite (dispatch_status_200 _ _ _ _ _ H). unfold response_json.
    destruct (json_body rs) as [j |] eqn:E.
    + left. split; [exact H |]. exists j. split; reflexivity.
    + right; left. repeat split; try assumption.
  - right; right. split; [exact H |].
    rewrite (dispatch_status_error _ _ _ _ _ H). reflexivity.
Qed.

(** C1 (amended): [_send_request] answers every response by its status.  On
    200 with a body that parses as JSON it returns the parsed body; on 400,
    401, 402, 403, 404 and 500 it raises the error of the matching class, and
    on any other status but 200 the error of the base class; every such error
    carries the method, the full URL and the payload of the exchange that was
    made (the parsed body, or [str(response)] when the body does not parse). *)
Theorem send_request_dispatch net method endpoint base_url params json_data auth w :
  let rq := built_request (self w) method endpoint base_url params json_data auth in
  let rs := net (sent w) rq in
  let url := (base_url ++ endpoint)%string in
  let payload := guarded_json rs in
  let out := _send_request net method endpoint base_url params json_data auth w in
  sent (snd out) = sent w ++ [(rq, rs)] /\
  rq_method rq = method /\ rq_url rq = url /\
  (status_code rs = 200 -> forall j, json_body rs = Some j -> fst out = Ok j) /\
  (status_code rs = 400 ->
     fst out = Raise (AlgoBullsAPIError AlgoBullsAPIBadRequest method url payload)) /\
  (status_code rs = 401 ->
     fst out = Raise (AlgoBullsAPIError AlgoBullsAPIUnauthorizedError method url payload)) /\
  (status_code rs = 402 ->
     fst out = Raise (AlgoBullsAPIError AlgoBullsAPIInsufficientBalanceError method url payload)) /\
  (status_code rs = 403 ->
     fst out = Raise (AlgoBullsAPIError AlgoBullsAPIForbiddenError method url payload)) /\
  (status_code rs = 404 ->
     fst out = Raise (AlgoBullsAPIError AlgoBullsAPIResourceNotFoundError method url payload)) /\
  (status_code rs = 500 ->
     fst out = Raise (AlgoBullsAPIError AlgoBullsAPIInternalServerErrorException method url payload)) /\
  (~ In (status_code rs) [200; 400; 401; 402; 403; 404; 500] ->
     fst out = Raise (AlgoBullsAPIError AlgoBullsAPIBaseException method url payload)).
Proof.
  cbv zeta.
  pose proof (send_request_cases net method endpoint base_url params json_data auth w) as C.
  cbv zeta in C.
  set (rq := built_request (self w) method endpoint base_url params json_data auth) in *.
  set (rs := net (sent w) rq) in *.
  set (out := _send_request net method endpoint base_url params json_data auth w) in *.
  destruct C as [(H & j' & Hj' & E) | [(H & Hn & E) | (Hne & E)]]; rewrite E; cbn [fst snd].
  - repeat split; try reflexivity; try (intros H'; rewrite H in H'; discriminate).
    + intros _ j Hj. congruence.
    + intros H'. exfalso. apply H'. rewrite H. now left.
  - repeat split; try reflexivity; try (intros H'; rewrite H in H'; discriminate).
    + intros _ j Hj. congruence.
    + intros H'. exfalso. apply H'. rewrite H. now left.
  - unfold error_of. cbn [fst snd].
    split; [reflexivity |]. split; [reflexivity |]. split; [reflexivity |].
    split; [intros H; contradiction |].
    destruct (class_of_status_cases (status_code rs))
      as [(S & ->) | [(S & ->) | [(S & ->) | [(S & ->) | [(S & ->) | [(S & ->) |
          (S1 & S2 & S3 & S4 & S5 & S6 & ->)]]]]]];
      repeat split; intros H'; try reflexivity;
      try (rewrite S in H'; discriminate); try contradiction;
      exfalso; apply H'; rewrite S; cbn; auto 10.
Qed.

(** C9: when the body of a response does not parse as JSON, the guarded parse
    yields [str(response)], and on a status other than 200 the error that is
    raised carries that string as its response payload. *)
Theorem unparsed_body_falls_back net method endpoint base_url params json_data auth w :
  let rq := built_request (self w) method endpoint base_url params json_data auth in
  let rs := net (sent w) rq in
  json_body rs = None ->
  guarded_json rs = PyStr (str_response rs) /\
  (status_code rs <> 200 ->
   fst (_send_request net method endpoint base_url params json_data auth w)
   = Raise (AlgoBullsAPIError (class_of_status (status_code rs)) method
              (base_url ++ endpoint)%string (PyStr (str_response rs)))).
Proof.
  intros rq rs Hbody.
  assert (G : guarded_json rs = PyStr (str_response rs)).
  { unfold guarded_json. rewrite Hbody. reflexivity. }
  split; [exact G |]. intros Hne. subst rs rq.
  destruct (send_request_cases net method endpoint base_url params json_data auth w)
    as [(H & _) | [(H & _) | (_ & E)]]; try contradiction.
  rewrite E. unfold error_of. cbn [fst snd]. rewrite G. reflexivity.
Qed.

(** C10: on status 200 with a body that is not valid JSON the fallback is not
    used: the second, unguarded parse raises [JSONDecodeError], which leaves
    [_send_request] as it is, neither a returned payload nor an error of the
    client's taxonomy. *)
Theorem unparsed_200_escapes net method endpoint base_url params json_data auth w :
  let rq := built_request (self w) method endpoint base_url params json_data auth in
  let rs := net (sent w) rq in
  let out := _send_request net method endpoint base_url params json_data auth w in
  status_code rs = 200 -> json_body rs = None ->
  out = (Raise JSONDecodeError, raising (answered w rq rs) JSONDecodeError) /\
  (forall j, fst out <> Ok j) /\
  (forall cls m u p, fst out <> Raise (AlgoBullsAPIError cls m u p)).
Proof.
  intros rq rs out H200 Hbody. subst out rs rq.
  destruct (send_request_cases net method endpoint base_url params json_data auth w)
    as [(_ & j & Hj & _) | [(_ & _ & E) | (Hne & _)]]; try congruence.
  rewrite E. cbn. repeat split; intros; discriminate.
Qed.

(** ** Key resolution *)

Lemma slot_set_slot_same t k a : slot t (set_slot t k a) = k.
Proof. destruct t; reflexivity. Qed.

Lemma slot_set_slot_other t t' k a : t' <> t -> slot t' (set_slot t k a) = slot t' a.
Proof. destruct t, t'; intros H; try reflexivity; contradiction. Qed.

Lemma headers_set_slot t k a : headers (set_slot t k a) = headers a.
Proof. destruct t; reflexivity. Qed.

Lemma get_key_branch net ttv sc t w :
  __get_key net ttv sc (Member t) w = get_key_slot net ttv sc t w.
Proof. destruct t; reflexivity. Qed.

Lemma get_key_foreign net ttv sc v w :
  __get_key net ttv sc (Foreign v) w
  = (Raise NotImplementedError, raising w NotImplementedError).
Proof. reflexivity. Qed.

(** A slot that holds a key answers without any request. *)
Lemma get_key_hit net ttv sc t w :
  is_None (slot t (self w)) = false ->
  __get_key net ttv sc (Member t) w = (Ok (slot t (self w)), w).
Proof.
  intros H. rewrite get_key_branch. unfold get_key_slot, bind, get_self. cbn.
  rewrite H. reflexivity.
Qed.

(** A slot that holds [None] is filled from the registration request. *)
Lemma get_key_miss net ttv sc t w :
  is_None (slot t (self w)) = true ->
  __get_key net ttv sc (Member t) w
  = match _send_request net "options" "v2/portfolio/strategy" SERVER_ENDPOINT None
            (Some (PyDict [("strategyId", PyStr sc); ("tradingType", ttv t)])) true w with
    | (Ok response, w1) =>
        match py_get response "key" with
        | Ok k => (Ok k, with_self (set_slot t k (self w1)) w1)
        | Raise e => (Raise e, raising w1 e)
        end
    | (Raise e, w1) => (Raise e, w1)
    end.
Proof.
  intros H. rewrite get_key_branch. unfold get_key_slot, bind, get_self. cbn [fst snd].
  rewrite H. unfold __fetch_key, bind.
  destruct (_send_request net "options" "v2/portfolio/strategy" SERVER_ENDPOINT None
              (Some (PyDict [("strategyId", PyStr sc); ("tradingType", ttv t)])) true w)
    as [[response | e] w1]; [| reflexivity].
  destruct (py_get response "key") as [k | e]; cbn.
  - unfold with_self. rewrite slot_set_slot_same. reflexivity.
  - reflexivity.
Qed.

(** ** Symbolic execution of a call *)

Lemma during_app {A : Type} (l l' : list A) : skipn (List.length l) (l ++ l') = l'.
Proof. induction l as [| a l IH]; cbn; auto. Qed.

Lemma during_nil {A : Type} (l : list A) : skipn (List.length l) l = [].
Proof. induction l as [| a l IH]; cbn; auto. Qed.

Ltac norm_world :=
  cbn [self sent raised answered with_self raising fst snd] in *.

(** One step: the next key resolution, request, [get] or [except] of the goal
    is replaced by each of its possible outcomes. *)
Ltac exec_step :=
  match goal with
  | |- context [__get_key ?n ?v ?sc (Foreign ?x) ?w] =>
      rewrite (get_key_foreign n v sc x w)
  | |- context [__get_key ?n ?v ?sc (Member ?t) ?w] =>
      let H := fresh "Hslot" in
      destruct (is_None (slot t (self w))) eqn:H;
      [ rewrite (get_key_miss n v sc t w H) | rewrite (get_key_hit n v sc t w H) ]
  | |- context [_send_request ?n ?m ?e ?b ?p ?j ?a ?w] =>
      let C := fresh "C" in
      let rq := fresh "rq" in let rs := fresh "rs" in
      let Hrq := fresh "Hrq" in let Hrs := fresh "Hrs" in
      let E := fresh "E" in
      pose proof (send_request_cases n m e b p j a w) as C; cbv zeta in C;
      remember (built_request (self w) m e b p j a) as rq eqn:Hrq;
      remember (n (sent w) rq) as rs eqn:Hrs;
      destruct C as [(? & ? & ? & E) | [(? & ? & E) | (? & E)]]; rewrite E; clear E
  | |- context [py_get ?j ?k] =>
      destruct (py_get j k) eqn:?
  | |- context [forbidden_or_insufficient_balance ?e] =>
      destruct (forbidden_or_insufficient_balance e) eqn:?
  end; cbv beta iota zeta; norm_world.

Ltac exec_unfold :=
  unfold run, set_access_token, create_strategy, update_strategy, get_all_strategies,
    get_strategy_details, search_instrument, set_strategy_config,
    start_strategy_algotrading, stop_strategy_algotrading, get_job_status, get_logs,
    get_reports, strategies_endpoint, reports_endpoint, try_except, bind, ret, raise,
    get_self, put_self;
  cbv beta iota zeta delta [tag_is TradingType_eqb TradingReportType_eqb];
  norm_world.

Ltac exec := exec_unfold; repeat exec_step.

Ltac norm_logs :=
  unfold sent_during, raised_during in *; norm_world;
  rewrite <- ?app_assoc, ?during_app, ?during_nil; cbn [app].

(** Every call of a public method, by method and by tag. *)
Ltac each_call c :=
  destruct c as [tok | n d v | n d v | | sc | i | sc cfg [[]|] | sc [[]|] | sc [[]|]
                 | sc [[]|] | sc [[]|] | sc [[]|] [[]|]].

Ltac use_catch :=
  repeat match goal with
         | H : forbidden_or_insufficient_balance _ = _ |- _ =>
             first [ discriminate H | rewrite H ]
         end.

(** ** What every call does *)

(** The observation lists only grow. *)
Lemma run_grows net pstr ttv c w :
  let w' := snd (run net pstr ttv c w) in
  sent w' = sent w ++ sent_during w w' /\
  raised w' = raised w ++ raised_during w w'.
Proof.
  cbv zeta. each_call c; exec; norm_logs; rewrite ?app_nil_r; split; reflexivity.
Qed.

(** An exception raised during a call is the outcome of the call, unless the
    [try] of the call catches it, and then the call returns [None]. *)
Lemma raised_outcome net pstr ttv c w e :
  In e (raised_during w (snd (run net pstr ttv c w))) ->
  if swallowed_by c e then fst (run net pstr ttv c w) = Ok PyNone
  else fst (run net pstr ttv c w) = Raise e.
Proof.
  each_call c; exec; norm_logs; cbn [swallowed_by];
    try (intros []; fail);
    intros [<- | []]; use_catch; reflexivity.
Qed.

(** An answer with a status other than 200 raises its error. *)
Lemma refusal_raises net pstr ttv c w x :
  In x (sent_during w (snd (run net pstr ttv c w))) ->
  status_code (snd x) <> 200 ->
  In (error_of x) (raised_during w (snd (run net pstr ttv c w))).
Proof.
  each_call c; exec; norm_logs; intros Hin Hne; cbn [In] in Hin;
    repeat (destruct Hin as [<- | Hin]; cbn [snd] in Hne; try contradiction);
    try contradiction; left; reflexivity.
Qed.

(** No call but [set_access_token] touches the header of the client, and
    every request carries that header, except the request of
    [search_instrument], which carries none. *)
Lemma run_headers net pstr ttv c w :
  is_set_access_token c = false ->
  let w' := snd (run net pstr ttv c w) in
  headers (self w') = headers (self w) /\
  forall x, In x (sent_during w w') ->
    rq_headers (fst x) = if is_search_instrument c then None else headers (self w).
Proof.
  cbv zeta. each_call c; try discriminate; intros _; exec; norm_logs;
    (split; [reflexivity |]); intros ? Hin; cbn [In] in Hin;
    repeat (destruct Hin as [<- | Hin]); try contradiction;
    subst; reflexivity.
Qed.

(** A slot that holds a key keeps it through every call. *)
Lemma run_keeps_key net pstr ttv c w t :
  is_None (slot t (self w)) = false ->
  slot t (self (snd (run net pstr ttv c w))) = slot t (self w).
Proof.
  intros H. each_call c; exec; try reflexivity;
    destruct t; cbn [slot set_slot key_backtesting key_papertrading key_realtrading] in *;
    congruence.
Qed.

Lemma registrations_app l l' :
  registrations (l ++ l') = (registrations l + registrations l')%nat.
Proof. unfold registrations. rewrite filter_app, length_app. reflexivity. Qed.

Ltac subst_requests :=
  repeat match goal with
         | H : ?r = built_request _ _ _ _ _ _ _ |- _ => subst r
         end.

(** A call sends at most one registration request. *)
Lemma run_registers_once net pstr ttv c w :
  (registrations (sent_during w (snd (run net pstr ttv c w))) <= 1)%nat.
Proof.
  each_call c; exec; norm_logs; subst_requests; vm_compute; lia.
Qed.

(** A call that finds a key in the slot sends no registration request. *)
Lemma run_hit_registers_not net pstr ttv c w code t :
  resolves_key c = Some (code, t) ->
  is_None (slot t (self w)) = false ->
  registrations (sent_during w (snd (run net pstr ttv c w))) = 0%nat.
Proof.
  intros R H. each_call c; try discriminate R; injection R as <- <-;
    exec; try congruence; norm_logs; subst_requests; reflexivity.
Qed.

(** What a granted key says about the answer to the registration request. *)
Lemma granted_key_spec net ttv code t w k :
  granted_key net ttv code t w = Some k ->
  let rs := net (sent w) (registration_request ttv (self w) code t) in
  status_code rs = 200 /\
  (exists j, json_body rs = Some j /\ py_get j "key" = Ok k) /\
  is_None k = false.
Proof.
  unfold granted_key. cbv zeta.
  destruct (Z.eqb_spec
              (status_code (net (sent w) (registration_request ttv (self w) code t))) 200)
    as [E | E]; [| discriminate].
  destruct (json_body (net (sent w) (registration_request ttv (self w) code t)))
    as [[| | | | | | dict] |]; try discriminate.
  destruct (assoc_get "key" dict) as [k' |] eqn:G; [| discriminate].
  destruct (is_None k') eqn:N; [discriminate |].
  intros [= <-]. split; [exact E |]. split; [| exact N].
  exists (PyDict dict). split; [reflexivity |]. cbn. rewrite G. reflexivity.
Qed.

(** An empty slot is filled with the key that the backend grants. *)
Lemma get_key_fetch net ttv code t w k :
  is_None (slot t (self w)) = true ->
  granted_key net ttv code t w = Some k ->
  let rq := registration_request ttv (self w) code t in
  __get_key net ttv code (Member t) w
  = (Ok k, with_self (set_slot t k (self w)) (answered w rq (net (sent w) rq))).
Proof.
  intros Hs G. cbv zeta. rewrite (get_key_miss net ttv code t w Hs).
  destruct (granted_key_spec _ _ _ _ _ G) as (H200 & (j & Hj & Hk) & _).
  unfold registration_request in *.
  destruct (send_request_cases net "options" "v2/portfolio/strategy" SERVER_ENDPOINT None
              (Some (PyDict [("strategyId", PyStr code); ("tradingType", ttv t)])) true w)
    as [(_ & j' & Hj' & E) | [(_ & Hn & _) | (Hne & _)]]; try congruence.
  rewrite E. assert (j' = j) as -> by congruence. rewrite Hk. reflexivity.
Qed.

Lemma run_fills_slot net pstr ttv c w code t k :
  resolves_key c = Some (code, t) ->
  is_None (slot t (self w)) = true ->
  granted_key net ttv code t w = Some k ->
  slot t (self (snd (run net pstr ttv c w))) = k.
Proof.
  intros R Hs G. each_call c; try discriminate R; injection R as <- <-;
    exec_unfold; rewrite (get_key_fetch _ _ _ _ _ Hs G);
    cbv beta iota zeta; norm_world; repeat exec_step; reflexivity.
Qed.

Lemma run_all_keeps_key net pstr ttv cs w t :
  is_None (slot t (self w)) = false ->
  slot t (self (run_all net pstr ttv cs w)) = slot t (self w).
Proof.
  revert w. induction cs as [| c cs IH]; intros w H; cbn [run_all]; [reflexivity |].
  rewrite IH; rewrite (run_keeps_key net pstr ttv c w t H); auto.
Qed.

Lemma sent_during_trans w w1 w2 :
  sent w1 = sent w ++ sent_during w w1 ->
  sent w2 = sent w1 ++ sent_during w1 w2 ->
  sent_during w w2 = sent_during w w1 ++ sent_during w1 w2.
Proof.
  intros H1 H2. unfold sent_during at 1. rewrite H2, H1, <- app_assoc.
  apply during_app.
Qed.

(** ** The key cache *)

(** C3 (amended): when two key-dependent operations are called in sequence on
    one client for the same trading mode, and the slot of that mode holds a
    key once the first call is over -- it held one before, or the backend
    granted one to the first call's registration -- then the second call takes
    its key from the slot and sends no registration request, and the two calls
    together send at most one. *)
Theorem second_call_hits_cache net pstr ttv t code1 code2 c1 c2 w :
  resolves_key c1 = Some (code1, t) ->
  resolves_key c2 = Some (code2, t) ->
  let w1 := snd (run net pstr ttv c1 w) in
  let w2 := snd (run net pstr ttv c2 w1) in
  (is_None (slot t (self w)) = false \/ granted_key net ttv code1 t w <> None ->
   is_None (slot t (self w1)) = false) /\
  (is_None (slot t (self w1)) = false ->
   __get_key net ttv code2 (Member t) w1 = (Ok (slot t (self w1)), w1) /\
   registrations (sent_during w1 w2) = 0%nat /\
   (registrations (sent_during w w2) <= 1)%nat /\
   slot t (self w2) = slot t (self w1)).
Proof.
  intros R1 R2 w1 w2. split.
  - intros H. destruct (is_None (slot t (self w))) eqn:Hs.
    + destruct H as [H | H]; [discriminate |].
      destruct (granted_key net ttv code1 t w) as [k |] eqn:G; [| contradiction].
      subst w1. rewrite (run_fills_slot net pstr ttv c1 w R1 Hs G).
      now destruct (granted_key_spec _ _ _ _ _ G) as (_ & _ & N).
    + subst w1. rewrite (run_keeps_key net pstr ttv c1 w t Hs). exact Hs.
  - intros H1.
    assert (Z2 : registrations (sent_during w1 w2) = 0%nat)
      by (subst w2; exact (run_hit_registers_not net pstr ttv c2 w1 R2 H1)).
    split; [exact (get_key_hit net ttv code2 t w1 H1) |].
    split; [exact Z2 |]. split.
    + rewrite (sent_during_trans w w1 w2).
      * rewrite registrations_app, Z2, Nat.add_0_r. subst w1.
        apply run_registers_once.
      * subst w1. apply run_grows.
      * subst w2. apply run_grows.
    + subst w2. apply run_keeps_key. exact H1.
Qed.

(** C4 (amended): the key that key resolution yields for a trading mode is the
    key held in the slot of that mode.  An empty slot is filled with the key
    that the backend grants to the strategy code and mode of the call; a slot
    that holds a key answers with it whatever strategy code the call names,
    and keeps it through every later call: it is never invalidated or
    refreshed. *)
Theorem cached_key_is_reused net pstr ttv t w :
  (forall code k,
     is_None (slot t (self w)) = true ->
     granted_key net ttv code t w = Some k ->
     let rq := registration_request ttv (self w) code t in
     __get_key net ttv code (Member t) w
     = (Ok k, with_self (set_slot t k (self w)) (answered w rq (net (sent w) rq)))) /\
  (is_None (slot t (self w)) = false ->
   (forall code, __get_key net ttv code (Member t) w = (Ok (slot t (self w)), w)) /\
   (forall c code, resolves_key c = Some (code, t) ->
      registrations (sent_during w (snd (run net pstr ttv c w))) = 0%nat) /\
   (forall cs, slot t (self (run_all net pstr ttv cs w)) = slot t (self w))).
Proof.
  split.
  - intros code k Hs G. exact (get_key_fetch net ttv code t w Hs G).
  - intros H. split; [| split].
    + intros code. exact (get_key_hit net ttv code t w H).
    + intros c code R. exact (run_hit_registers_not net pstr ttv c w R H).
    + intros cs. exact (run_all_keeps_key net pstr ttv cs w t H).
Qed.

(** [_send_request] reads of the client its header only. *)
Lemma send_request_with_self net method endpoint base_url params json_data auth a w :
  headers a = headers (self w) ->
  _send_request net method endpoint base_url params json_data auth (with_self a w)
  = (fst (_send_request net method endpoint base_url params json_data auth w),
     with_self a (snd (_send_request net method endpoint base_url params json_data auth w))).
Proof.
  intros H. rewrite !send_request_unfold. cbv zeta. unfold built_request.
  norm_world. rewrite H.
  set (rq := {| rq_method := method;
                rq_headers := if auth then headers (self w) else None;
                rq_url := (base_url ++ endpoint)%string;
                rq_params := params; rq_json := json_data |}).
  set (rs := net (sent w) rq).
  destruct (Z.eq_dec (status_code rs) 200) as [E | E].
  - rewrite !(dispatch_status_200 _ _ _ _ _ E). unfold response_json.
    destruct (json_body rs); reflexivity.
  - rewrite !(dispatch_status_error _ _ _ _ _ E). reflexivity.
Qed.

Lemma send_request_self net method endpoint base_url params json_data auth w :
  self (snd (_send_request net method endpoint base_url params json_data auth w)) = self w.
Proof.
  destruct (send_request_cases net method endpoint base_url params json_data auth w)
    as [(_ & j & _ & E) | [(_ & _ & E) | (_ & E)]]; rewrite E; reflexivity.
Qed.

(** C5: the slots are independent.  Resolving the key of one trading mode
    leaves the authorization header and the slots of the other two modes as
    they were, and its outcome -- the result, the requests sent, the errors
    raised and the new content of the mode's own slot -- is the same whatever
    the other two slots hold. *)
Theorem get_key_touches_one_slot net ttv code t w :
  let w' := snd (__get_key net ttv code (Member t) w) in
  headers (self w') = headers (self w) /\
  (forall t', t' <> t -> slot t' (self w') = slot t' (self w)) /\
  (forall a, headers a = headers (self w) -> slot t a = slot t (self w) ->
     let v := __get_key net ttv code (Member t) (with_self a w) in
     fst v = fst (__get_key net ttv code (Member t) w) /\
     sent (snd v) = sent w' /\
     raised (snd v) = raised w' /\
     slot t (self (snd v)) = slot t (self w') /\
     (forall t', t' <> t -> slot t' (self (snd v)) = slot t' a)).
Proof.
  cbv zeta. destruct (is_None (slot t (self w))) eqn:Hs.
  - rewrite (get_key_miss net ttv code t w Hs).
    pose proof (send_request_self net "options" "v2/portfolio/strategy" SERVER_ENDPOINT None
                  (Some (PyDict [("strategyId", PyStr code); ("tradingType", ttv t)]))
                  true w) as Hself.
    split; [| split].
    + destruct (_send_request net "options" "v2/portfolio/strategy" SERVER_ENDPOINT None
                  (Some (PyDict [("strategyId", PyStr code); ("tradingType", ttv t)])) true w)
        as [[rsp | e] w1]; cbn [snd] in Hself.
      * destruct (py_get rsp "key"); norm_world;
          rewrite ?headers_set_slot, Hself; reflexivity.
      * norm_world. rewrite Hself. reflexivity.
    + intros t' Hne.
      destruct (_send_request net "options" "v2/portfolio/strategy" SERVER_ENDPOINT None
                  (Some (PyDict [("strategyId", PyStr code); ("tradingType", ttv t)])) true w)
        as [[rsp | e] w1]; cbn [snd] in Hself.
      * destruct (py_get rsp "key"); norm_world;
          rewrite ?(slot_set_slot_other _ _ Hne), Hself; reflexivity.
      * norm_world. rewrite Hself. reflexivity.
    + intros a Hh Ha.
      assert (Hs' : is_None (slot t (self (with_self a w))) = true)
        by (norm_world; rewrite Ha; exact Hs).
      rewrite (get_key_miss net ttv code t (with_self a w) Hs').
      rewrite (send_request_with_self net _ _ _ _ _ _ a w Hh).
      destruct (_send_request net "options" "v2/portfolio/strategy" SERVER_ENDPOINT None
                  (Some (PyDict [("strategyId", PyStr code); ("tradingType", ttv t)])) true w)
        as [[rsp | e] w1]; cbn [snd] in Hself; norm_world.
      * destruct (py_get rsp "key"); norm_world.
        -- rewrite !slot_set_slot_same. repeat split; try reflexivity.
           intros t' Hne. apply slot_set_slot_other. exact Hne.
        -- rewrite Hself. repeat split; auto.
      * rewrite Hself. repeat split; auto.
  - rewrite (get_key_hit net ttv code t w Hs).
    split; [reflexivity |]. split; [reflexivity |].
    intros a Hh Ha.
    assert (Hs' : is_None (slot t (self (with_self a w))) = false)
      by (norm_world; rewrite Ha; exact Hs).
    rewrite (get_key_hit net ttv code t (with_self a w) Hs'). norm_world.
    rewrite Ha. repeat split; auto.
Qed.

(** ** Unrecognized tags *)

(** C6: an object that is not a member of the enumeration, passed as trading
    type to key resolution or to the endpoint selection of start and stop, or
    as report type to [get_reports], makes the operation raise
    [NotImplementedError] before it has sent any request. *)
Theorem unrecognized_tag_raises net pstr ttv :
  (forall code v w,
     __get_key net ttv code (Foreign v) w
     = (Raise NotImplementedError, raising w NotImplementedError)) /\
  (forall c w,
     has_foreign_tag c = true ->
     fst (run net pstr ttv c w) = Raise NotImplementedError /\
     sent (snd (run net pstr ttv c w)) = sent w).
Proof.
  split.
  - intros code v w. reflexivity.
  - intros c w H. each_call c; try discriminate H; exec; split; reflexivity.
Qed.

(** ** The authorization header *)

(** C7: [search_instrument] sends exactly one request, and that request has
    no headers at all, hence no [Authorization] header; the request, the
    answer and the result are the same whatever the client holds, token or
    no token. *)
Theorem search_instrument_sends_no_authorization net instrument w :
  let rq := {| rq_method := "get"; rq_headers := None;
               rq_url := (SERVER_ENDPOINT ++ "v2/instrument/search")%string;
               rq_params := Some (PyDict [("instrument", PyStr instrument)]);
               rq_json := None |} in
  sent (snd (search_instrument net instrument w)) = sent w ++ [(rq, net (sent w) rq)] /\
  authorization rq = None /\
  (forall a,
     fst (search_instrument net instrument (with_self a w))
     = fst (search_instrument net instrument w) /\
     sent (snd (search_instrument net instrument (with_self a w)))
     = sent (snd (search_instrument net instrument w))).
Proof.
  cbv zeta. split; [| split].
  - exec; subst; reflexivity.
  - reflexivity.
  - intros a. unfold search_instrument, bind, ret.
    rewrite (send_request_unfold net _ _ _ _ _ _ (with_self a w)).
    rewrite (send_request_unfold net _ _ _ _ _ _ w).
    cbv zeta. unfold built_request. norm_world.
    set (rq := {| rq_method := "get"; rq_headers := None;
                  rq_url := (SERVER_ENDPOINT ++ "v2/instrument/search")%string;
                  rq_params := Some (PyDict [("instrument", PyStr instrument)]);
                  rq_json := None |}).
    set (rs := net (sent w) rq).
    destruct (Z.eq_dec (status_code rs) 200) as [E | E].
    + rewrite !(dispatch_status_200 _ _ _ _ _ E). unfold response_json.
      destruct (json_body rs); split; reflexivity.
    + rewrite !(dispatch_status_error _ _ _ _ _ E). split; reflexivity.
Qed.

(** Only [search_instrument] addresses the search endpoint. *)
Lemma run_search_url net pstr ttv c w x :
  In x (sent_during w (snd (run net pstr ttv c w))) ->
  is_search (fst x) = is_search_instrument c.
Proof.
  each_call c; exec; norm_logs; intros Hin; cbn [In] in Hin;
    repeat (destruct Hin as [<- | Hin]); try contradiction;
    subst_requests; vm_compute; reflexivity.
Qed.

(** Through calls other than [set_access_token] the header of the client
    stays, and every request carries it, or none when it addresses the
    search endpoint. *)
Lemma run_all_headers net pstr ttv cs w :
  no_set_access_token cs = true ->
  let w' := run_all net pstr ttv cs w in
  headers (self w') = headers (self w) /\
  sent w' = sent w ++ sent_during w w' /\
  forall x, In x (sent_during w w') ->
    rq_headers (fst x) = if is_search (fst x) then None else headers (self w).
Proof.
  cbv zeta. revert w. induction cs as [| c cs IH]; intros w H.
  - cbn [run_all]. unfold sent_during. rewrite during_nil, app_nil_r.
    split; [reflexivity |]. split; [reflexivity |]. intros x [].
  - cbn [run_all]. cbn [no_set_access_token forallb] in H.
    apply andb_true_iff in H. destruct H as [Hc Hcs].
    apply negb_true_iff in Hc.
    destruct (run_headers net pstr ttv c w Hc) as [Hh Hrq].
    destruct (run_grows net pstr ttv c w) as [Hg _].
    destruct (IH (snd (run net pstr ttv c w)) Hcs) as (IHh & IHg & IHrq).
    set (w1 := snd (run net pstr ttv c w)) in *.
    set (w2 := run_all net pstr ttv cs w1) in *.
    assert (T : sent_during w w2 = sent_during w w1 ++ sent_during w1 w2)
      by (apply sent_during_trans; assumption).
    split; [congruence |]. split.
    + rewrite T, app_assoc, <- Hg. exact IHg.
    + intros x Hin. rewrite T in Hin. apply in_app_or in Hin.
      destruct Hin as [Hin | Hin].
      * rewrite (Hrq x Hin). subst w1.
        rewrite (run_search_url net pstr ttv c w x Hin). reflexivity.
      * rewrite (IHrq x Hin), Hh. reflexivity.
Qed.

(** C8: as long as [set_access_token] has never been called on a client,
    every request it sends has no [Authorization] header; and once
    [set_access_token] has stored a token, every later request other than the
    public search request carries an [Authorization] header whose value is
    that token, character for character. *)
Theorem authorization_is_the_stored_token net pstr ttv :
  (forall cs x,
     no_set_access_token cs = true ->
     In x (sent (run_all net pstr ttv cs fresh_world)) ->
     rq_headers (fst x) = None /\ authorization (fst x) = None) /\
  (forall w access_token,
     headers (self (snd (run net pstr ttv (Call_set_access_token access_token) w)))
     = Some [("Authorization", access_token)]) /\
  (forall w access_token cs x,
     no_set_access_token cs = true ->
     let w0 := snd (run net pstr ttv (Call_set_access_token access_token) w) in
     In x (sent_during w0 (run_all net pstr ttv cs w0)) ->
     is_search (fst x) = false ->
     rq_headers (fst x) = Some [("Authorization", access_token)] /\
     authorization (fst x) = Some access_token) /\
  (forall c w x,
     In x (sent_during w (snd (run net pstr ttv c w))) ->
     is_search (fst x) = is_search_instrument c).
Proof.
  split; [| split; [| split]].
  - intros cs x H Hin.
    destruct (run_all_headers net pstr ttv cs fresh_world H) as (_ & _ & Hrq).
    assert (E : rq_headers (fst x) = None).
    { rewrite (Hrq x Hin). cbn. now destruct (is_search (fst x)). }
    split; [exact E |]. unfold authorization. rewrite E. reflexivity.
  - intros w access_token. reflexivity.
  - intros w access_token cs x H w0 Hin Hs.
    destruct (run_all_headers net pstr ttv cs w0 H) as (_ & _ & Hrq).
    assert (E : rq_headers (fst x) = Some [("Authorization", access_token)]).
    { rewrite (Hrq x Hin), Hs. reflexivity. }
    split; [exact E |]. unfold authorization. rewrite E. cbn.
    reflexivity.
  - intros c w x Hin. exact (run_search_url net pstr ttv c w x Hin).
Qed.

(** ** Propagation of errors *)

(** C2: an error raised during an operation is the outcome of the operation:
    nothing catches it, except that [start_strategy_algotrading] and
    [stop_strategy_algotrading] catch the Forbidden and InsufficientBalance
    errors and then return [None].  So a 402 or a 403 answered to a request of
    [get_job_status] comes out as its error, and answered to a request of
    start or stop makes the call return [None]. *)
Theorem errors_propagate_except_start_stop net pstr ttv :
  (forall c w e,
     In e (raised_during w (snd (run net pstr ttv c w))) ->
     if swallowed_by c e then fst (run net pstr ttv c w) = Ok PyNone
     else fst (run net pstr ttv c w) = Raise e) /\
  (forall code ty w x,
     In x (sent_during w (snd (run net pstr ttv (Call_get_job_status code ty) w))) ->
     (status_code (snd x) = 402 ->
      fst (run net pstr ttv (Call_get_job_status code ty) w)
      = Raise (AlgoBullsAPIError AlgoBullsAPIInsufficientBalanceError
                 (rq_method (fst x)) (rq_url (fst x)) (guarded_json (snd x)))) /\
     (status_code (snd x) = 403 ->
      fst (run net pstr ttv (Call_get_job_status code ty) w)
      = Raise (AlgoBullsAPIError AlgoBullsAPIForbiddenError
                 (rq_method (fst x)) (rq_url (fst x)) (guarded_json (snd x))))) /\
  (forall c code ty w x,
     c = Call_start_strategy_algotrading code ty \/
     c = Call_stop_strategy_algotrading code ty ->
     In x (sent_during w (snd (run net pstr ttv c w))) ->
     status_code (snd x) = 402 \/ status_code (snd x) = 403 ->
     fst (run net pstr ttv c w) = Ok PyNone).
Proof.
  split; [| split].
  - intros c w e. apply raised_outcome.
  - intros code ty w x Hin. split; intros Hst.
    + assert (Hne : status_code (snd x) <> 200) by (rewrite Hst; discriminate).
      pose proof (raised_outcome net pstr ttv _ w _
                    (refusal_raises net pstr ttv _ w x Hin Hne)) as P.
      cbn [swallowed_by] in P. rewrite P. unfold error_of. rewrite Hst. reflexivity.
    + assert (Hne : status_code (snd x) <> 200) by (rewrite Hst; discriminate).
      pose proof (raised_outcome net pstr ttv _ w _
                    (refusal_raises net pstr ttv _ w x Hin Hne)) as P.
      cbn [swallowed_by] in P. rewrite P. unfold error_of. rewrite Hst. reflexivity.
  - intros c code ty w x Hc Hin Hst.
    assert (Hne : status_code (snd x) <> 200)
      by (destruct Hst as [E | E]; rewrite E; discriminate).
    pose proof (raised_outcome net pstr ttv c w _
                  (refusal_raises net pstr ttv c w x Hin Hne)) as P.
    assert (S : swallowed_by c (error_of x) = true).
    { destruct Hc as [-> | ->]; cbn [swallowed_by]; unfold error_of;
        destruct Hst as [E | E]; rewrite E; reflexivity. }
    rewrite S in P. exact P.
Qed.

(** * The properties on concrete backends *)

(** A 403 answer to a status request comes out as the Forbidden error with
    the method, the URL and the parsed body. *)
Lemma send_request_dispatch_witness :
  status_code forbidden_403 = 403 /\
  fst (_send_request (constant_backend forbidden_403) "get" "v2/user/strategy/status"
         SERVER_ENDPOINT None None true fresh_world)
  = Raise (AlgoBullsAPIError AlgoBullsAPIForbiddenError "get"
             "http://127.0.0.1:8000/v2/user/strategy/status"
             (PyDict [("message", PyStr "Forbidden")])).
Proof.
  split; [reflexivity |].
  pose proof (send_request_dispatch (constant_backend forbidden_403) "get"
                "v2/user/strategy/status" SERVER_ENDPOINT None None true fresh_world) as H.
  cbv zeta in H. destruct H as (_ & _ & _ & _ & _ & _ & _ & H & _).
  exact (H eq_refl).
Defined.

(** The claim C1 as it is written fails on a 200 answer whose body is not
    JSON: [_send_request] returns nothing, it raises [JSONDecodeError]. *)
Lemma send_request_200_counterexample :
  status_code (constant_backend plain_text_200 []
                 (built_request __init__ "post" "v2/user/strategy/build/python"
                    SERVER_ENDPOINT None None true)) = 200 /\
  fst (_send_request (constant_backend plain_text_200) "post"
         "v2/user/strategy/build/python" SERVER_ENDPOINT None None true fresh_world)
  = Raise JSONDecodeError /\
  ~ (exists j,
       fst (_send_request (constant_backend plain_text_200) "post"
              "v2/user/strategy/build/python" SERVER_ENDPOINT None None true fresh_world)
       = Ok j).
Proof.
  split; [reflexivity |]. split; [reflexivity |].
  intros [j H]. vm_compute in H. discriminate H.
Defined.

(** A 403 answered to the registration of a start is swallowed; answered to
    the registration of [get_job_status] it is the outcome of the call. *)
Lemma errors_propagate_except_start_stop_witness :
  In (AlgoBullsAPIError AlgoBullsAPIForbiddenError "options"
        "http://127.0.0.1:8000/v2/portfolio/strategy"
        (PyDict [("message", PyStr "Forbidden")]))
     (raised_during fresh_world
        (snd (run (constant_backend forbidden_403) str_of_key value_of
                (Call_start_strategy_algotrading "S1" (Member BACKTESTING)) fresh_world))) /\
  fst (run (constant_backend forbidden_403) str_of_key value_of
         (Call_start_strategy_algotrading "S1" (Member BACKTESTING)) fresh_world)
  = Ok PyNone /\
  fst (run (constant_backend forbidden_403) str_of_key value_of
         (Call_get_job_status "S1" (Member BACKTESTING)) fresh_world)
  = Raise (AlgoBullsAPIError AlgoBullsAPIForbiddenError "options"
             "http://127.0.0.1:8000/v2/portfolio/strategy"
             (PyDict [("message", PyStr "Forbidden")])).
Proof.
  split; [vm_compute; left; reflexivity |]. split.
  - exact (proj1 (errors_propagate_except_start_stop
                    (constant_backend forbidden_403) str_of_key value_of)
             (Call_start_strategy_algotrading "S1" (Member BACKTESTING)) fresh_world
             (AlgoBullsAPIError AlgoBullsAPIForbiddenError "options"
                "http://127.0.0.1:8000/v2/portfolio/strategy"
                (PyDict [("message", PyStr "Forbidden")]))
             (or_introl eq_refl)).
  - exact (proj2 (proj1 (proj2 (errors_propagate_except_start_stop
                                  (constant_backend forbidden_403) str_of_key value_of))
                    "S1" (Member BACKTESTING) fresh_world
                    (registration_request value_of __init__ "S1" BACKTESTING, forbidden_403)
                    (or_introl eq_refl))
             eq_refl).
Defined.

(** On the registering backend the second of two status calls finds the key
    in the slot. *)
Lemma second_call_hits_cache_witness :
  resolves_key (Call_get_job_status "S1" (Member BACKTESTING))
  = Some ("S1", BACKTESTING) /\
  granted_key registering_backend value_of "S1" BACKTESTING fresh_world <> None /\
  registrations
    (sent_during after_first_status
       (snd (run registering_backend str_of_key value_of
               (Call_get_job_status "S1" (Member BACKTESTING)) after_first_status)))
  = 0%nat /\
  (registrations
     (sent_during fresh_world
        (snd (run registering_backend str_of_key value_of
                (Call_get_job_status "S1" (Member BACKTESTING)) after_first_status)))
   <= 1)%nat.
Proof.
  assert (G : granted_key registering_backend value_of "S1" BACKTESTING fresh_world <> None)
    by (vm_compute; discriminate).
  split; [reflexivity |]. split; [exact G |].
  pose proof (second_call_hits_cache registering_backend str_of_key value_of
                (t := BACKTESTING) (code1 := "S1") (code2 := "S1")
                (Call_get_job_status "S1" (Member BACKTESTING))
                (Call_get_job_status "S1" (Member BACKTESTING))
                fresh_world eq_refl eq_refl) as H.
  cbv zeta in H. destruct H as [H1 H2].
  destruct (H2 (H1 (or_intror G))) as (_ & Z & L & _).
  split; [exact Z | exact L].
Defined.

(** The claim C3 as it is written fails on a backend whose answer to the
    registration has no [key] field: both calls succeed, and both register. *)
Lemma second_call_registers_again_counterexample :
  fst (run (constant_backend empty_object_200) str_of_key value_of
         (Call_get_job_status "S1" (Member BACKTESTING)) fresh_world)
  = Ok (PyDict []) /\
  registrations
    (sent_during
       (snd (run (constant_backend empty_object_200) str_of_key value_of
               (Call_get_job_status "S1" (Member BACKTESTING)) fresh_world))
       (run_all (constant_backend empty_object_200) str_of_key value_of
          [Call_get_job_status "S1" (Member BACKTESTING);
           Call_get_job_status "S1" (Member BACKTESTING)] fresh_world))
  = 1%nat /\
  ~ (registrations
       (sent_during fresh_world
          (run_all (constant_backend empty_object_200) str_of_key value_of
             [Call_get_job_status "S1" (Member BACKTESTING);
              Call_get_job_status "S1" (Member BACKTESTING)] fresh_world))
     <= 1)%nat.
Proof.
  split; [reflexivity |]. split; [reflexivity |].
  vm_compute. intros H. apply Nat.nle_succ_diag_l in H. exact H.
Defined.

(** Once strategy [S1] has a key in the backtesting slot, key resolution for
    strategy [S2] in backtesting mode answers with that key. *)
Lemma cached_key_is_reused_witness :
  is_None (slot BACKTESTING (self after_first_status)) = false /\
  __get_key registering_backend value_of "S2" (Member BACKTESTING) after_first_status
  = (Ok (slot BACKTESTING (self after_first_status)), after_first_status).
Proof.
  split; [reflexivity |].
  exact (proj1 (proj2 (cached_key_is_reused registering_backend str_of_key value_of
                         BACKTESTING after_first_status) eq_refl) "S2").
Defined.

(** The claim C4 as it is written fails for a second strategy code in the
    same mode: the status request for [S2] carries the key granted to [S1],
    not the key that the backend grants to [S2]. *)
Lemma key_of_other_strategy_counterexample :
  fst (__get_key registering_backend value_of "S2" (Member BACKTESTING) after_first_status)
  = Ok (PyStr "S1/BACKTESTING") /\
  granted_key registering_backend value_of "S2" BACKTESTING after_first_status
  = Some (PyStr "S2/BACKTESTING") /\
  map (fun x => rq_params (fst x))
    (sent_during after_first_status
       (snd (run registering_backend str_of_key value_of
               (Call_get_job_status "S2" (Member BACKTESTING)) after_first_status)))
  = [Some (PyDict [("key", PyStr "S1/BACKTESTING")])] /\
  ~ (forall k,
       fst (__get_key registering_backend value_of "S2" (Member BACKTESTING)
              after_first_status) = Ok k ->
       granted_key registering_backend value_of "S2" BACKTESTING after_first_status
       = Some k).
Proof.
  split; [reflexivity |]. split; [reflexivity |]. split; [reflexivity |].
  intros H. specialize (H (PyStr "S1/BACKTESTING") eq_refl).
  vm_compute in H. discriminate H.
Defined.

(** Filling the backtesting slot leaves the paper-trading slot alone. *)
Lemma get_key_touches_one_slot_witness :
  PAPERTRADING <> BACKTESTING /\
  slot PAPERTRADING
    (self (snd (__get_key registering_backend value_of "S1" (Member BACKTESTING)
                  fresh_world)))
  = slot PAPERTRADING (self fresh_world).
Proof.
  split; [discriminate |].
  pose proof (get_key_touches_one_slot registering_backend value_of "S1"
                BACKTESTING fresh_world) as H.
  cbv zeta in H. destruct H as (_ & H & _).
  apply H. discriminate.
Defined.

(** A plain string where a trading type is expected. *)
Lemma unrecognized_tag_raises_witness :
  has_foreign_tag (Call_get_logs "S1" (Foreign (PyStr "BACKTESTING"))) = true /\
  fst (run registering_backend str_of_key value_of
         (Call_get_logs "S1" (Foreign (PyStr "BACKTESTING"))) fresh_world)
  = Raise NotImplementedError /\
  sent (snd (run registering_backend str_of_key value_of
               (Call_get_logs "S1" (Foreign (PyStr "BACKTESTING"))) fresh_world))
  = sent fresh_world.
Proof.
  split; [reflexivity |].
  exact (proj2 (unrecognized_tag_raises registering_backend str_of_key value_of)
           (Call_get_logs "S1" (Foreign (PyStr "BACKTESTING"))) fresh_world eq_refl).
Defined.

(** After [set_access_token("tok-123")] the tweak request carries the token
    as it is. *)
Lemma authorization_is_the_stored_token_witness :
  no_set_access_token
    [Call_set_strategy_config "S1" (PyDict []) (Member REALTRADING);
     Call_search_instrument "X"] = true /\
  authorization
    {| rq_method := "patch";
       rq_headers := Some [("Authorization", "tok-123")];
       rq_url := "http://127.0.0.1:8000/v2/user/strategy/S1/REALTRADING/tweak";
       rq_params := None;
       rq_json := Some (PyDict []) |}
  = Some "tok-123".
Proof.
  split; [reflexivity |].
  pose proof (proj1 (proj2 (proj2 (authorization_is_the_stored_token
                                     registering_backend str_of_key value_of)))
                fresh_world "tok-123"
                [Call_set_strategy_config "S1" (PyDict []) (Member REALTRADING);
                 Call_search_instrument "X"]
                ({| rq_method := "patch";
                    rq_headers := Some [("Authorization", "tok-123")];
                    rq_url := "http://127.0.0.1:8000/v2/user/strategy/S1/REALTRADING/tweak";
                    rq_params := None;
                    rq_json := Some (PyDict []) |}, empty_object_200)
                eq_refl) as H.
  cbv zeta in H.
  exact (proj2 (H (or_intror (or_introl eq_refl)) eq_refl)).
Defined.

(** A 502 with a body that is not JSON: the base error carries
    [str(response)]. *)
Lemma unparsed_body_falls_back_witness :
  json_body bad_gateway_502 = None /\
  status_code bad_gateway_502 <> 200 /\
  fst (_send_request (constant_backend bad_gateway_502) "get" "v2/user/strategy/logs"
         SERVER_ENDPOINT None None true fresh_world)
  = Raise (AlgoBullsAPIError AlgoBullsAPIBaseException "get"
             "http://127.0.0.1:8000/v2/user/strategy/logs"
             (PyStr "<Response [502]>")).
Proof.
  assert (N : status_code bad_gateway_502 <> 200) by discriminate.
  split; [reflexivity |]. split; [exact N |].
  pose proof (unparsed_body_falls_back (constant_backend bad_gateway_502) "get"
                "v2/user/strategy/logs" SERVER_ENDPOINT None None true fresh_world) as H.
  cbv zeta in H. exact (proj2 (H eq_refl) N).
Defined.

(** A 200 with a body that is not JSON. *)
Lemma unparsed_200_escapes_witness :
  status_code plain_text_200 = 200 /\
  json_body plain_text_200 = None /\
  fst (_send_request (constant_backend plain_text_200) "get" "v2/user/strategy/logs"
         SERVER_ENDPOINT None None true fresh_world)
  = Raise JSONDecodeError.
Proof.
  split; [reflexivity |]. split; [reflexivity |].
  pose proof (unparsed_200_escapes (constant_backend plain_text_200) "get"
                "v2/user/strategy/logs" SERVER_ENDPOINT None None true fresh_world) as H.
  cbv zeta in H. destruct (H eq_refl eq_refl) as [E _].
  exact (f_equal fst E).
Defined.

(** * Further properties of the operations *)

(** ** What a call changes *)

(** A call changes of the client at most the header, when it is
    [set_access_token], or the slot of the trading mode whose key it
    resolves: a call that resolves no key leaves the client as it is, and a
    call that resolves a key leaves the header and the two other slots as
    they are. *)
Theorem call_changes_its_own_slot_only net pstr ttv c w :
  let w' := snd (run net pstr ttv c w) in
  (resolves_key c = None -> is_set_access_token c = false -> self w' = self w) /\
  (forall code t,
     resolves_key c = Some (code, t) ->
     headers (self w') = headers (self w) /\
     forall t', t' <> t -> slot t' (self w') = slot t' (self w)).
Proof.
  cbv zeta. split.
  - intros R S. each_call c; try discriminate R; try discriminate S; exec; reflexivity.
  - intros code t R. each_call c; try discriminate R; injection R as <- <-;
      exec; (split; [reflexivity |]); intros t' Hne; try reflexivity;
      destruct t'; try reflexivity; contradiction.
Qed.

Lemma call_changes_its_own_slot_only_witness :
  resolves_key (Call_get_logs "S1" (Member PAPERTRADING)) = Some ("S1", PAPERTRADING) /\
  REALTRADING <> PAPERTRADING /\
  slot REALTRADING (self after_first_logs) = slot REALTRADING (self fresh_world).
Proof.
  split; [reflexivity |]. split; [discriminate |].
  pose proof (call_changes_its_own_slot_only registering_backend str_of_key value_of
                (Call_get_logs "S1" (Member PAPERTRADING)) fresh_world) as H.
  cbv zeta in H. destruct H as [_ H].
  destruct (H "S1" PAPERTRADING eq_refl) as [_ H'].
  apply H'. discriminate.
Defined.

(** ** The requests of a call *)

(** A call sends at most two requests: none for [set_access_token], exactly
    one for the operations that need no key and for a key-dependent
    operation whose slot holds a key; when the slot is empty the first
    request is the registration for the strategy code and mode of the call,
    and what follows it is no registration. *)
Theorem requests_of_a_call net pstr ttv c w :
  let ss := sent_during w (snd (run net pstr ttv c w)) in
  (List.length ss <= 2)%nat /\
  (is_set_access_token c = true -> ss = []) /\
  (is_plain c = true -> List.length ss = 1%nat) /\
  (forall code t,
     resolves_key c = Some (code, t) ->
     (is_None (slot t (self w)) = false -> List.length ss = 1%nat) /\
     (is_None (slot t (self w)) = true ->
      hd_error ss
      = Some (registration_request ttv (self w) code t,
              net (sent w) (registration_request ttv (self w) code t)) /\
      registrations (tl ss) = 0%nat)).
Proof.
  cbv zeta. split; [| split; [| split]].
  - each_call c; exec; norm_logs; cbn [List.length]; lia.
  - intros S. each_call c; try discriminate S. exec; norm_logs. reflexivity.
  - intros P. each_call c; try discriminate P; exec; norm_logs; reflexivity.
  - intros code t R. each_call c; try discriminate R; injection R as <- <-;
      split; intros Hs; exec; try congruence; norm_logs; try reflexivity;
      subst; (split; [reflexivity | vm_compute; reflexivity]).
Qed.

Lemma requests_of_a_call_witness :
  resolves_key (Call_get_logs "S1" (Member PAPERTRADING)) = Some ("S1", PAPERTRADING) /\
  is_None (slot PAPERTRADING (self after_first_logs)) = false /\
  List.length
    (sent_during after_first_logs
       (snd (run registering_backend str_of_key value_of
               (Call_get_logs "S1" (Member PAPERTRADING)) after_first_logs)))
  = 1%nat.
Proof.
  split; [reflexivity |]. split; [reflexivity |].
  pose proof (requests_of_a_call registering_backend str_of_key value_of
                (Call_get_logs "S1" (Member PAPERTRADING)) after_first_logs) as H.
  cbv zeta in H. destruct H as (_ & _ & _ & H).
  exact (proj1 (H "S1" PAPERTRADING eq_refl) eq_refl).
Defined.

(** ** Key resolution that fails, or finds no key *)

Lemma get_key_raise_keeps_client net ttv code ty w e w1 :
  __get_key net ttv code ty w = (Raise e, w1) -> self w1 = self w.
Proof.
  destruct ty as [t | v].
  - repeat exec_step; (intros [= <- <-] || intros [=]); reflexivity.
  - rewrite get_key_foreign. intros [= <- <-]. reflexivity.
Qed.

Lemma run_after_failed_key net pstr ttv c w code t e w1 :
  resolves_key c = Some (code, t) ->
  __get_key net ttv code (Member t) w = (Raise e, w1) ->
  run net pstr ttv c w = (if swallowed_by c e then Ok PyNone else Raise e, w1).
Proof.
  intros R H. each_call c; try discriminate R; injection R as <- <-;
    exec_unfold; rewrite H; cbv beta iota; cbn [swallowed_by];
    try reflexivity; destruct (forbidden_or_insufficient_balance e); reflexivity.
Qed.

(** When key resolution raises, the call ends there: its own request is not
    sent, the client is as before, and the error is the outcome of the call
    -- or [None], when start or stop catch it. *)
Theorem failed_key_resolution_ends_the_call net pstr ttv c w code t e w1 :
  resolves_key c = Some (code, t) ->
  __get_key net ttv code (Member t) w = (Raise e, w1) ->
  run net pstr ttv c w = (if swallowed_by c e then Ok PyNone else Raise e, w1) /\
  self w1 = self w /\
  (List.length (sent_during w w1) <= 1)%nat.
Proof.
  intros R H. split; [eapply run_after_failed_key; eassumption |].
  split; [eapply get_key_raise_keeps_client; eassumption |].
  revert H. repeat exec_step; (intros [= <- <-] || intros [=]);
    norm_logs; cbn [List.length]; lia.
Qed.

Lemma failed_key_resolution_ends_the_call_witness :
  resolves_key (Call_get_reports "S1" (Member REALTRADING) (Member PNL_TABLE))
  = Some ("S1", REALTRADING) /\
  fst (run (constant_backend server_error_500) str_of_key value_of
         (Call_get_reports "S1" (Member REALTRADING) (Member PNL_TABLE)) fresh_world)
  = Raise (AlgoBullsAPIError AlgoBullsAPIInternalServerErrorException "options"
             "http://127.0.0.1:8000/v2/portfolio/strategy" (PyDict [])) /\
  List.length
    (sent (snd (run (constant_backend server_error_500) str_of_key value_of
                  (Call_get_reports "S1" (Member REALTRADING) (Member PNL_TABLE))
                  fresh_world)))
  = 1%nat.
Proof.
  split; [reflexivity |].
  pose proof (failed_key_resolution_ends_the_call
                (constant_backend server_error_500) str_of_key value_of
                (Call_get_reports "S1" (Member REALTRADING) (Member PNL_TABLE))
                fresh_world (code := "S1") (t := REALTRADING) eq_refl eq_refl) as H.
  destruct H as (E & _ & _). split.
  - exact (f_equal fst E).
  - exact (f_equal (fun p => List.length (sent (snd p))) E).
Defined.

Lemma set_slot_None t a :
  is_None (slot t a) = true -> set_slot t PyNone a = a.
Proof.
  destruct a as [h kb kp kr]; destruct t; cbn; intros H;
    [destruct kb | destruct kp | destruct kr]; try discriminate H; reflexivity.
Qed.

Lemma get_key_keyless net ttv code t w dict :
  is_None (slot t (self w)) = true ->
  status_code (net (sent w) (registration_request ttv (self w) code t)) = 200 ->
  json_body (net (sent w) (registration_request ttv (self w) code t)) = Some (PyDict dict) ->
  assoc_get "key" dict = None \/ assoc_get "key" dict = Some PyNone ->
  __get_key net ttv code (Member t) w
  = (Ok PyNone,
     answered w (registration_request ttv (self w) code t)
       (net (sent w) (registration_request ttv (self w) code t))).
Proof.
  intros Hs H200 Hj Hk. rewrite (get_key_miss net ttv code t w Hs).
  unfold registration_request in *.
  destruct (send_request_cases net "options" "v2/portfolio/strategy" SERVER_ENDPOINT None
              (Some (PyDict [("strategyId", PyStr code); ("tradingType", ttv t)])) true w)
    as [(_ & j' & Hj' & E) | [(_ & Hn & _) | (Hne & _)]]; try congruence.
  rewrite E. assert (j' = PyDict dict) as -> by congruence.
  assert (G : py_get (PyDict dict) "key" = Ok PyNone)
    by (cbn; destruct Hk as [-> | ->]; reflexivity).
  rewrite G. unfold with_self, answered. cbn [self sent raised].
  rewrite (set_slot_None t (self w) Hs). reflexivity.
Qed.

(** A registration answered 200 with a JSON object that has no [key] field,
    or whose [key] is [null], is no failure: key resolution yields [None]
    and stores nothing, and the call goes on to send its own request with
    [None] as the key -- [get_job_status] sends [{'key': None}]. *)
Theorem keyless_registration_is_passed_on net pstr ttv code t w dict :
  is_None (slot t (self w)) = true ->
  status_code (net (sent w) (registration_request ttv (self w) code t)) = 200 ->
  json_body (net (sent w) (registration_request ttv (self w) code t)) = Some (PyDict dict) ->
  assoc_get "key" dict = None \/ assoc_get "key" dict = Some PyNone ->
  fst (__get_key net ttv code (Member t) w) = Ok PyNone /\
  self (snd (__get_key net ttv code (Member t) w)) = self w /\
  (forall c,
     resolves_key c = Some (code, t) ->
     List.length (sent_during w (snd (run net pstr ttv c w))) = 2%nat /\
     self (snd (run net pstr ttv c w)) = self w) /\
  map (fun x => rq_params (fst x))
    (sent_during w (snd (run net pstr ttv (Call_get_job_status code (Member t)) w)))
  = [None; Some (PyDict [("key", PyNone)])].
Proof.
  intros Hs H200 Hj Hk.
  pose proof (get_key_keyless net ttv code t w Hs H200 Hj Hk) as G.
  split; [rewrite G; reflexivity |]. split; [rewrite G; reflexivity |]. split.
  - intros c R. each_call c; try discriminate R; injection R as <- <-;
      exec_unfold; rewrite G; cbv beta iota zeta; norm_world;
      repeat exec_step; norm_logs; split; reflexivity.
  - exec_unfold. rewrite G. cbv beta iota zeta. norm_world.
    repeat exec_step; norm_logs; subst; reflexivity.
Qed.

Lemma keyless_registration_is_passed_on_witness :
  is_None (slot BACKTESTING (self fresh_world)) = true /\
  assoc_get "key" [] = None /\
  map (fun x => rq_params (fst x))
    (sent_during fresh_world
       (snd (run (constant_backend empty_object_200) str_of_key value_of
               (Call_get_job_status "S1" (Member BACKTESTING)) fresh_world)))
  = [None; Some (PyDict [("key", PyNone)])].
Proof.
  split; [reflexivity |]. split; [reflexivity |].
  exact (proj2 (proj2 (proj2
           (keyless_registration_is_passed_on (constant_backend empty_object_200)
              str_of_key value_of "S1" BACKTESTING fresh_world (dict := [])
              eq_refl eq_refl eq_refl (or_introl eq_refl))))).
Defined.

(** A registration answered 200 with JSON that is not an object -- a list, a
    string, a number, [null] -- makes every key-dependent call raise
    [AttributeError], start and stop included, after that one request and
    with the client unchanged. *)
Theorem non_object_registration_answer net pstr ttv c code t w j :
  resolves_key c = Some (code, t) ->
  is_None (slot t (self w)) = true ->
  status_code (net (sent w) (registration_request ttv (self w) code t)) = 200 ->
  json_body (net (sent w) (registration_request ttv (self w) code t)) = Some j ->
  is_dict j = false ->
  run net pstr ttv c w
  = (Raise AttributeError,
     raising (answered w (registration_request ttv (self w) code t)
                (net (sent w) (registration_request ttv (self w) code t)))
       AttributeError).
Proof.
  intros R Hs H200 Hj Hd.
  assert (G : __get_key net ttv code (Member t) w
              = (Raise AttributeError,
                 raising (answered w (registration_request ttv (self w) code t)
                            (net (sent w) (registration_request ttv (self w) code t)))
                   AttributeError)).
  { rewrite (get_key_miss net ttv code t w Hs). unfold registration_request in *.
    destruct (send_request_cases net "options" "v2/portfolio/strategy" SERVER_ENDPOINT None
                (Some (PyDict [("strategyId", PyStr code); ("tradingType", ttv t)])) true w)
      as [(_ & j' & Hj' & E) | [(_ & Hn & _) | (Hne & _)]]; try congruence.
    rewrite E. assert (j' = j) as -> by congruence.
    destruct j; try discriminate Hd; reflexivity. }
  rewrite (@run_after_failed_key net pstr ttv c w code t _ _ R G).
  destruct c; reflexivity.
Qed.

Lemma non_object_registration_answer_witness :
  resolves_key (Call_start_strategy_algotrading "S1" (Member PAPERTRADING))
  = Some ("S1", PAPERTRADING) /\
  is_dict (PyList []) = false /\
  fst (run (constant_backend list_200) str_of_key value_of
         (Call_start_strategy_algotrading "S1" (Member PAPERTRADING)) fresh_world)
  = Raise AttributeError.
Proof.
  split; [reflexivity |]. split; [reflexivity |].
  exact (f_equal fst
           (non_object_registration_answer (constant_backend list_200) str_of_key
              value_of (Call_start_strategy_algotrading "S1" (Member PAPERTRADING))
              (code := "S1") (t := PAPERTRADING) fresh_world (j := PyList [])
              eq_refl eq_refl eq_refl eq_refl eq_refl)).
Defined.

(** ** Registrations over the life of a client *)

Lemma filled_le_3 a : (filled a <= 3)%nat.
Proof.
  unfold filled.
  destruct (is_None (key_backtesting a)), (is_None (key_papertrading a)),
    (is_None (key_realtrading a)); cbn; lia.
Qed.

Lemma run_all_grows net pstr ttv cs w :
  sent (run_all net pstr ttv cs w) = sent w ++ sent_during w (run_all net pstr ttv cs w).
Proof.
  revert w. induction cs as [| c cs IH]; intros w; cbn [run_all].
  - unfold sent_during. rewrite during_nil, app_nil_r. reflexivity.
  - destruct (run_grows net pstr ttv c w) as [Hg _].
    rewrite (sent_during_trans w (snd (run net pstr ttv c w)) _ Hg (IH _)).
    rewrite app_assoc, <- Hg. apply IH.
Qed.

(** With a granting backend, key resolution either finds the key or
    fetches one. *)
Ltac exec_key_granted AG :=
  match goal with
  | |- context [__get_key ?n ?v ?sc (Member ?t) ?w] =>
      let Hs := fresh "Hslot" in
      let G := fresh "G" in
      let N := fresh "N" in
      let k := fresh "k" in
      destruct (is_None (slot t (self w))) eqn:Hs;
      [ destruct (granted_key n v sc t w) as [k |] eqn:G;
        [ pose proof (proj2 (proj2 (granted_key_spec n v sc t w G))) as N;
          rewrite (get_key_fetch n v sc t w Hs G)
        | exfalso; exact (AG w sc t G) ]
      | rewrite (get_key_hit n v sc t w Hs) ]
  end; cbv beta iota zeta; norm_world.

Ltac count_slots :=
  unfold filled;
  cbn [slot set_slot key_backtesting key_papertrading key_realtrading] in *;
  repeat match goal with
         | H : is_None _ = _ |- _ => rewrite H
         end;
  repeat match goal with
         | |- context [is_None ?x] => destruct (is_None x)
         end.

(** With a granting backend every registration fills a slot. *)
Lemma run_registers_to_fill net pstr ttv c w :
  always_grants net ttv ->
  (registrations (sent_during w (snd (run net pstr ttv c w))) + filled (self w))%nat
  = filled (self (snd (run net pstr ttv c w))).
Proof.
  intros AG. each_call c; exec_unfold; try exec_key_granted AG; repeat exec_step;
    norm_logs; subst_requests; count_slots; vm_compute; reflexivity.
Qed.

(** Against a backend that grants a key to every registration, the
    registrations that a client sends over any sequence of calls are as many
    as the slots that the sequence fills: at most three in the life of a
    client, one for each trading mode. *)
Theorem registrations_fill_slots net pstr ttv cs w :
  always_grants net ttv ->
  (registrations (sent_during w (run_all net pstr ttv cs w)) + filled (self w))%nat
  = filled (self (run_all net pstr ttv cs w)) /\
  (registrations (sent_during w (run_all net pstr ttv cs w)) <= 3)%nat.
Proof.
  intros AG.
  assert (E : (registrations (sent_during w (run_all net pstr ttv cs w))
               + filled (self w))%nat
              = filled (self (run_all net pstr ttv cs w))).
  { revert w. induction cs as [| c cs IH]; intros w; cbn [run_all].
    - unfold sent_during. rewrite during_nil. reflexivity.
    - destruct (run_grows net pstr ttv c w) as [Hg _].
      rewrite (sent_during_trans w (snd (run net pstr ttv c w)) _ Hg
                 (run_all_grows net pstr ttv cs _)).
      rewrite registrations_app, <- IH,
        <- (run_registers_to_fill pstr c w AG). lia. }
  split; [exact E |].
  pose proof (filled_le_3 (self (run_all net pstr ttv cs w))). lia.
Qed.

Lemma registrations_fill_slots_witness :
  always_grants registering_backend value_of /\
  (registrations
     (sent_during fresh_world
        (run_all registering_backend str_of_key value_of
           [Call_get_logs "S1" (Member BACKTESTING);
            Call_get_job_status "S2" (Member BACKTESTING);
            Call_start_strategy_algotrading "S1" (Member REALTRADING);
            Call_stop_strategy_algotrading "S1" (Member REALTRADING)]
           fresh_world))
   <= 3)%nat.
Proof.
  assert (AG : always_grants registering_backend value_of)
    by (intros w code t; destruct t; vm_compute; discriminate).
  split; [exact AG |].
  exact (proj2 (@registrations_fill_slots registering_backend str_of_key value_of
                  [Call_get_logs "S1" (Member BACKTESTING);
                   Call_get_job_status "S2" (Member BACKTESTING);
                   Call_start_strategy_algotrading "S1" (Member REALTRADING);
                   Call_stop_strategy_algotrading "S1" (Member REALTRADING)]
                  fresh_world AG)).
Defined.

(** ** A call that returns *)

(** When a call returns a value -- for start and stop: a value other than
    [None] -- every request it sent was answered 200 with a body that parses
    as JSON, no error was raised on the way, and, but for
    [set_strategy_config], the value is the parsed body of the last
    answer. *)
Theorem returned_value_is_the_last_body net pstr ttv c w val :
  fst (run net pstr ttv c w) = Ok val ->
  may_swallow c = false \/ val <> PyNone ->
  (forall x, In x (sent_during w (snd (run net pstr ttv c w))) ->
     status_code (snd x) = 200 /\ json_body (snd x) <> None) /\
  raised_during w (snd (run net pstr ttv c w)) = [] /\
  (returns_response c = true ->
   exists pre rq rs,
     sent_during w (snd (run net pstr ttv c w)) = pre ++ [(rq, rs)] /\
     json_body rs = Some val).
Proof.
  each_call c; exec; norm_logs; intros Hv Hsw; try discriminate Hv;
    injection Hv as <-;
    try (exfalso; destruct Hsw as [Hsw | Hsw];
         [discriminate Hsw | exact (Hsw eq_refl)]; fail);
    (split;
     [ intros ? Hin; cbn [In] in Hin;
       repeat (destruct Hin as [<- | Hin]); try contradiction;
       cbn [snd]; split; congruence
     | split; [reflexivity |] ]);
    intros Hr; try discriminate Hr;
    match goal with
    | |- exists pre rq rs, [?a] = _ /\ _ => exists [], (fst a), (snd a)
    | |- exists pre rq rs, [?b; ?a] = _ /\ _ => exists [b], (fst a), (snd a)
    end; (split; [reflexivity | assumption]).
Qed.

Lemma returned_value_is_the_last_body_witness :
  fst (run registering_backend str_of_key value_of
         (Call_get_logs "S1" (Member PAPERTRADING)) fresh_world) = Ok (PyDict []) /\
  raised_during fresh_world after_first_logs = [].
Proof.
  split; [reflexivity |].
  exact (proj1 (proj2
           (@returned_value_is_the_last_body registering_backend str_of_key value_of
              (Call_get_logs "S1" (Member PAPERTRADING)) fresh_world (PyDict [])
              eq_refl (or_introl eq_refl)))).
Defined.

(** ** The requests on the wire *)



(** With the key of the mode in its slot, start and stop each send one POST
    to the same URL, the one of the mode, with the same key; the bodies
    differ in [newVal] (1 against 0) and in the [status] of the record (0
    against 2) only.  The three modes have three different URLs. *)
Theorem start_and_stop_requests net pstr ttv code t w :
  is_None (slot t (self w)) = false ->
  map fst (sent_during w
             (snd (run net pstr ttv (Call_start_strategy_algotrading code (Member t)) w)))
  = [ {| rq_method := "post"; rq_headers := headers (self w);
         rq_url := strategies_url t; rq_params := None;
         rq_json := Some (job_body 1 0 (slot t (self w))) |} ] /\
  map fst (sent_during w
             (snd (run net pstr ttv (Call_stop_strategy_algotrading code (Member t)) w)))
  = [ {| rq_method := "post"; rq_headers := headers (self w);
         rq_url := strategies_url t; rq_params := None;
         rq_json := Some (job_body 0 2 (slot t (self w))) |} ] /\
  (forall t', t' <> t -> strategies_url t' <> strategies_url t).
Proof.
  intros Hs. split; [| split].
  - destruct t; exec_unfold; rewrite get_key_hit by exact Hs;
      cbv beta iota zeta; norm_world; repeat exec_step; norm_logs; subst; reflexivity.
  - destruct t; exec_unfold; rewrite get_key_hit by exact Hs;
      cbv beta iota zeta; norm_world; repeat exec_step; norm_logs; subst; reflexivity.
  - intros t' Hne. destruct t, t'; try contradiction; discriminate.
Qed.

Lemma start_and_stop_requests_witness :
  is_None (slot BACKTESTING (self after_first_status)) = false /\
  map fst (sent_during after_first_status
             (snd (run registering_backend str_of_key value_of
                     (Call_stop_strategy_algotrading "S1" (Member BACKTESTING))
                     after_first_status)))
  = [ {| rq_method := "post"; rq_headers := None;
         rq_url := "http://127.0.0.1:8000/v2/backtesting/strategies";
         rq_params := None;
         rq_json := Some (job_body 0 2 (PyStr "S1/BACKTESTING")) |} ].
Proof.
  split; [reflexivity |].
  exact (proj1 (proj2 (@start_and_stop_requests registering_backend str_of_key value_of
                         "S1" BACKTESTING after_first_status eq_refl))).
Defined.

(** With the key of the mode in its slot, [get_reports] sends one GET with
    the key as its query to the URL of the report kind, and the three report
    kinds have three different URLs. *)
Theorem get_reports_request net pstr ttv code t r w :
  is_None (slot t (self w)) = false ->
  map fst (sent_during w
             (snd (run net pstr ttv (Call_get_reports code (Member t) (Member r)) w)))
  = [ {| rq_method := "get"; rq_headers := headers (self w);
         rq_url := reports_url r;
         rq_params := Some (PyDict [("key", slot t (self w))]);
         rq_json := None |} ] /\
  (forall r', r' <> r -> reports_url r' <> reports_url r).
Proof.
  intros Hs. split.
  - destruct t, r; exec_unfold; rewrite get_key_hit by exact Hs;
      cbv beta iota zeta; norm_world; repeat exec_step; norm_logs; subst; reflexivity.
  - intros r' Hne. destruct r, r'; try contradiction; discriminate.
Qed.

Lemma get_reports_request_witness :
  is_None (slot BACKTESTING (self after_first_status)) = false /\
  map fst (sent_during after_first_status
             (snd (run registering_backend str_of_key value_of
                     (Call_get_reports "S1" (Member BACKTESTING) (Member ORDER_HISTORY))
                     after_first_status)))
  = [ {| rq_method := "get"; rq_headers := None;
         rq_url := "http://127.0.0.1:8000/v2/user/strategy/orderhistory";
         rq_params := Some (PyDict [("key", PyStr "S1/BACKTESTING")]);
         rq_json := None |} ].
Proof.
  split; [reflexivity |].
  exact (proj1 (@get_reports_request registering_backend str_of_key value_of
                  "S1" BACKTESTING ORDER_HISTORY after_first_status eq_refl)).
Defined.

(** ** A new token *)

(** [set_access_token] sends nothing and keeps the three cached keys: a
    key-dependent call made after a change of token still takes the key
    cached before the change, registers nothing, and sends that key under the
    new token. *)
Theorem new_token_keeps_the_keys net pstr ttv access_token c code t w :
  resolves_key c = Some (code, t) ->
  is_None (slot t (self w)) = false ->
  let w0 := snd (run net pstr ttv (Call_set_access_token access_token) w) in
  sent w0 = sent w /\
  (forall t', slot t' (self w0) = slot t' (self w)) /\
  __get_key net ttv code (Member t) w0 = (Ok (slot t (self w)), w0) /\
  (forall x, In x (sent_during w0 (snd (run net pstr ttv c w0))) ->
     is_registration (fst x) = false /\
     rq_headers (fst x) = Some [("Authorization", access_token)]).
Proof.
  intros R Hs w0.
  assert (S0 : forall t', slot t' (self w0) = slot t' (self w))
    by (intros t'; destruct t'; reflexivity).
  assert (Hs0 : is_None (slot t (self w0)) = false) by (rewrite S0; exact Hs).
  split; [reflexivity |]. split; [exact S0 |]. split.
  - rewrite (get_key_hit net ttv code t w0 Hs0), S0. reflexivity.
  - intros x Hin. split.
    + pose proof (run_hit_registers_not net pstr ttv c w0 R Hs0) as Z.
      unfold registrations in Z. apply length_zero_iff_nil in Z.
      destruct (is_registration (fst x)) eqn:E; [| reflexivity].
      assert (In x (filter (fun y => is_registration (fst y))
                      (sent_during w0 (snd (run net pstr ttv c w0)))))
        by (apply filter_In; split; assumption).
      rewrite Z in H. contradiction.
    + assert (Hc : is_set_access_token c = false) by (destruct c; try reflexivity; discriminate R).
      destruct (run_headers net pstr ttv c w0 Hc) as [_ Hrq].
      rewrite (Hrq x Hin).
      assert (is_search_instrument c = false) as -> by (destruct c; try reflexivity; discriminate R).
      reflexivity.
Qed.

Lemma new_token_keeps_the_keys_witness :
  resolves_key (Call_get_job_status "S1" (Member BACKTESTING)) = Some ("S1", BACKTESTING) /\
  is_None (slot BACKTESTING (self after_first_status)) = false /\
  __get_key registering_backend value_of "S1" (Member BACKTESTING)
    (snd (run registering_backend str_of_key value_of
            (Call_set_access_token "tok-456") after_first_status))
  = (Ok (PyStr "S1/BACKTESTING"),
     snd (run registering_backend str_of_key value_of
            (Call_set_access_token "tok-456") after_first_status)).
Proof.
  split; [reflexivity |]. split; [reflexivity |].
  pose proof (@new_token_keeps_the_keys registering_backend str_of_key value_of
                "tok-456" (Call_get_job_status "S1" (Member BACKTESTING))
                "S1" BACKTESTING after_first_status eq_refl eq_refl) as H.
  cbv zeta in H. exact (proj1 (proj2 (proj2 H))).
Defined.

(** ** [set_strategy_config] *)


